(** * fingerproxy: the process wiring of the fingerprinting reverse proxy

    A shallow embedding of [fingerproxy.go] (package [fingerproxy]): the
    default header injectors, the TLS configuration, the reverse-proxy error
    handler, the environment helpers and [Run].

    Conventions.
    - Go strings are [string]; Go [int] status codes and protocol versions
      are [Z]; a Go [(T, error)] result is a [result T].
    - Everything the process does to the outside world (log lines, writes to
      the response writer, library calls that touch files or sockets,
      [os.Exit]) is an [event]; a Go function with effects is a computation
      in the monad [M], which collects the events in program order and stops
      at [os.Exit].
    - What the process reads from the outside world (environment, command
      line, the outcome of [url.Parse], [tls.LoadX509KeyPair] and of the
      listener) is a field of a [Platform]. *)

From Stdlib Require Import ZArith String Ascii List Bool Lia.
From stdpp Require Import base gmap strings list.

Local Open Scope string_scope.
Local Open Scope Z_scope.
Set Warnings "-register-all".

(** ** Go errors and [errors.Is] *)

Module errors.

(** The two sentinel errors of package [context] that [proxyErrorHandler]
    tests for. They are comparable values without [Is] or [Unwrap]. *)
Inductive sentinel : Type :=
| DeadlineExceeded
| Canceled.

#[export] Instance sentinel_eq_dec : EqDecision sentinel.
Proof. solve_decision. Defined.

(** An error value as [errors.Is] sees it: its text ([Error()]), its
    optional [Is(target) bool] method (constantly [false] when the type has
    none), and what it unwraps to: nothing (no [Unwrap], or one that
    returns nil), one error ([Unwrap() error]) or several
    ([Unwrap() []error]). *)
Inductive error : Type :=
| Sentinel (s : sentinel)
| Opaque (msg : string) (isM : sentinel -> bool)
| Wrap (msg : string) (isM : sentinel -> bool) (inner : error)
| Join (msg : string) (isM : sentinel -> bool) (errs : list error).

Definition sentinelText (s : sentinel) : string :=
  match s with
  | DeadlineExceeded => "context deadline exceeded"
  | Canceled => "context canceled"
  end.

(** [err.Error()] *)
Definition Error (err : error) : string :=
  match err with
  | Sentinel s => sentinelText s
  | Opaque msg _ | Wrap msg _ _ | Join msg _ _ => msg
  end.

(** The [Is] method of the error value itself. *)
Definition isMethod (err : error) (target : sentinel) : bool :=
  match err with
  | Sentinel _ => false
  | Opaque _ isM | Wrap _ isM _ | Join _ isM _ => isM target
  end.

(** [errors.Is(err, target)] for a sentinel target: the loop of the
    standard library, [err == target], then the [Is] method, then the
    unwrapped error(s), depth first. *)
Fixpoint Is (err : error) (target : sentinel) : bool :=
  match err with
  | Sentinel s => bool_decide (s = target)
  | Opaque _ isM => isM target
  | Wrap _ isM inner => isM target || Is inner target
  | Join _ isM errs => isM target || existsb (fun e => Is e target) errs
  end.

(** [fmt.Errorf("...: %w", inner)] and [errors.New]: no [Is] method. *)
Definition noIs : sentinel -> bool := fun _ => false.
Definition New (msg : string) : error := Opaque msg noIs.
Definition Errorf_w (msg : string) (inner : error) : error :=
  Wrap (msg +:+ ": " +:+ Error inner) noIs inner.

(** The reading of "is or wraps": [inChain err e] when [e] is [err] itself
    or is reached from it by unwrapping. *)
Inductive inChain : error -> error -> Prop :=
| inChain_here e : inChain e e
| inChain_wrap msg isM inner e :
    inChain inner e -> inChain (Wrap msg isM inner) e
| inChain_join msg isM errs e' e :
    In e' errs -> inChain e' e -> inChain (Join msg isM errs) e.

(** An error of the chain matches the target when it is the target or its
    [Is] method says so. *)
Definition matches (e : error) (target : sentinel) : Prop :=
  e = Sentinel target \/ isMethod e target = true.

Definition wraps (err : error) (target : sentinel) : Prop :=
  exists e, inChain err e /\ matches e target.

End errors.

Import errors.

(** Induction on an error that reaches the errors a [Join] holds. *)
Section ErrorInduction.

Variable P : error -> Prop.
Hypothesis P_Sentinel : forall s, P (Sentinel s).
Hypothesis P_Opaque : forall msg isM, P (Opaque msg isM).
Hypothesis P_Wrap : forall msg isM inner, P inner -> P (Wrap msg isM inner).
Hypothesis P_Join : forall msg isM errs, Forall P errs -> P (Join msg isM errs).

Fixpoint error_nested_ind (e : error) : P e :=
  match e with
  | Sentinel s => P_Sentinel s
  | Opaque msg isM => P_Opaque msg isM
  | Wrap msg isM inner => P_Wrap msg isM inner (error_nested_ind inner)
  | Join msg isM errs =>
      P_Join msg isM errs
        ((fix all (l : list error) : Forall P l :=
            match l with
            | [] => @List.Forall_nil _ P
            | x :: l' => @List.Forall_cons _ P x l' (error_nested_ind x) (all l')
            end) errs)
  end.

End ErrorInduction.

(** ** Values the process passes around *)

Inductive result (A : Type) : Type :=
| Ok (a : A)
| Err (e : error).
Arguments Ok {A} a.
Arguments Err {A} e.

Definition isErr {A} (r : result A) : bool :=
  match r with Ok _ => false | Err _ => true end.

(** [*url.URL], kept as its string form. *)
Record URL : Type := mkURL { URL_String : string }.

(** The loggers of the package (each a [log.New(os.Stderr, prefix, logFlags)]). *)
Inductive logger : Type :=
| ProxyServerLog
| HTTPServerLog
| PrometheusLog
| ReverseProxyLog
| FingerprintLog
| DefaultLog.

Definition prefix (l : logger) : string :=
  match l with
  | ProxyServerLog => "[proxyserver] "
  | HTTPServerLog => "[http] "
  | PrometheusLog => "[metrics] "
  | ReverseProxyLog => "[reverseproxy] "
  | FingerprintLog => "[fingerprint] "
  | DefaultLog => "[fingerproxy] "
  end.

(** The one metrics registry of the process ([prometheus.NewRegistry()]). *)
Inductive registry : Type :=
| PrometheusRegistry.

(** [time.Duration], in nanoseconds. *)
Module time.
Definition Millisecond : Z := 1000000.
Definition Second : Z := 1000 * Millisecond.
End time.

Definition HTTPIdleTimeout : Z := 180 * time.Second.
Definition HTTPReadTimeout : Z := 60 * time.Second.
Definition HTTPWriteTimeout : Z := 60 * time.Second.
Definition TLSHandshakeTimeout : Z := 10 * time.Second.
Definition ReverseProxyFlushInterval : Z := 100 * time.Millisecond.

Definition BuildCommit : string := "GIT_COMMIT_PLACEHOLDER".
Definition BuildTag : string := "GIT_TAG_PLACEHOLDER".

(** ** crypto/tls *)

Module tls.

Definition VersionTLS12 : Z := 0x0303.
Definition VersionTLS13 : Z := 0x0304.

(** [tls.Certificate]: the certificate chain and the private key. *)
Record Certificate : Type := mkCertificate {
  Certificate_chain : list string;
  PrivateKey : string
}.

(** The fields of [tls.Config] that the package sets. *)
Record Config : Type := mkConfig {
  NextProtos : list string;
  MinVersion : Z;
  MaxVersion : Z;
  Certificates : list Certificate
}.

End tls.

(** ** The collaborating packages, as far as this file uses them

    Function values that Go stores in struct fields are kept by name (an
    enumeration), so that the structs stay plain data. *)

Module fingerprint.

(** The fingerprint functions of package [fingerprint]. *)
Inductive FingerprintFunc : Type :=
| JA3Fingerprint
| JA4Fingerprint
| HTTP2Fingerprint.

(** Modelled from the spec: the injector type and
    [fingerprint.NewFingerprintHeaderInjector] are not in this file; the
    spec gives a header injector as "an immutable pair of (header name,
    fingerprint-computation capability)". *)
Record FingerprintHeaderInjector : Type := mkFingerprintHeaderInjector {
  HeaderName : string;
  Fingerprint : FingerprintFunc
}.

Definition NewFingerprintHeaderInjector (headerName : string)
    (fingerprintFunc : FingerprintFunc) : FingerprintHeaderInjector :=
  {| HeaderName := headerName; Fingerprint := fingerprintFunc |}.

End fingerprint.

Module reverseproxy.

(** The interface [reverseproxy.HeaderInjector], with the one implementation
    this file uses. *)
Definition HeaderInjector : Type := fingerprint.FingerprintHeaderInjector.

(** [reverseproxy.IsKubernetesProbeRequest], by name. *)
Inductive ProbePredicate : Type :=
| IsKubernetesProbeRequest.

(** The [ErrorHandler] callbacks, by name. *)
Inductive ErrorHandlerFunc : Type :=
| proxyErrorHandlerFunc.

(** The fields of [httputil.ReverseProxy] that the package sets. *)
Record ReverseProxy : Type := mkReverseProxy {
  ErrorLog : logger;
  FlushInterval : Z;
  ErrorHandler : ErrorHandlerFunc
}.

(** Modelled from the spec: [reverseproxy.HTTPHandler] and
    [reverseproxy.NewHTTPHandler] are not in this file; the spec gives the
    forwarding handler as owning "the pipeline, the backend target
    address, an optional probe predicate, and the underlying forwarding
    mechanism". The field [IsProbeRequest] is the one [Run] assigns. *)
Record HTTPHandler : Type := mkHTTPHandler {
  To : URL;
  Proxy : ReverseProxy;
  HeaderInjectors : list HeaderInjector;
  IsProbeRequest : option ProbePredicate
}.

(** Modelled from the spec: the constructor stores its three arguments
    and leaves the optional probe predicate unset. *)
Definition NewHTTPHandler (to : URL) (rp : ReverseProxy)
    (headerInjectors : list HeaderInjector) : HTTPHandler :=
  {| To := to; Proxy := rp; HeaderInjectors := headerInjectors;
     IsProbeRequest := None |}.

End reverseproxy.

Module proxyserver.

(** Modelled from the spec: [proxyserver.Server] and [proxyserver.NewServer]
    are not in this file; the spec lists what the proxy server owns, and
    these are the fields that [DefaultProxyServer] passes or assigns. *)
Record Server : Type := mkServer {
  Handler : reverseproxy.HTTPHandler;
  TLSConfig : tls.Config;
  VerboseLogs : bool;
  ErrorLog : logger;
  HTTPServer_ErrorLog : logger;
  MetricsRegistry : registry;
  HTTPServer_IdleTimeout : Z;
  HTTPServer_ReadTimeout : Z;
  HTTPServer_WriteTimeout : Z;
  TLSHandshakeTimeout : Z
}.

End proxyserver.

(** ** Effects *)

Inductive event : Type :=
| EvLog (l : logger) (msg : string)        (* one line of a logger *)
| EvStderr (s : string)                    (* fmt.Fprint* to os.Stderr *)
| EvUsage                                  (* the flag package's usage text *)
| EvWriteHeader (code : Z)                 (* rw.WriteHeader(code) *)
| EvWrite (body : string)                  (* rw.Write(body) *)
| EvUrlParse (raw : string) (r : result URL)
| EvLoadX509KeyPair (certFile keyFile : string) (r : result tls.Certificate)
| EvInitFingerprint (verboseLogs : bool)
| EvNotifyContext                          (* signal.NotifyContext(SIGINT, SIGTERM) *)
| EvGoListenAndServe (addr : string)       (* go http.ListenAndServe(addr, metrics) *)
| EvStartDebugServer                       (* debug.StartDebugServer() *)
| EvListenAndServe (srv : proxyserver.Server) (addr : string) (returned : error).

(** The calls through which a listening socket can be opened. An event
    records that the call was made, not that a socket was bound. *)
Definition bindsSocket (e : event) : bool :=
  match e with
  | EvGoListenAndServe _ | EvStartDebugServer | EvListenAndServe _ _ _ => true
  | _ => false
  end.

Inductive outcome (A : Type) : Type :=
| Ret (a : A)
| Exited (code : Z).
Arguments Ret {A} a.
Arguments Exited {A} code.

(** A computation: the events it performed, in order, and how it ended. *)
Definition M (A : Type) : Type := list event * outcome A.

Definition ret {A} (a : A) : M A := ([], Ret a).

Definition bind {A B} (m : M A) (f : A -> M B) : M B :=
  match m with
  | (t, Ret a) => let '(t', o) := f a in ((t ++ t')%list, o)
  | (t, Exited c) => (t, Exited c)
  end.

Declare Scope go_scope.
Delimit Scope go_scope with go.
Notation "x <- c1 ;; c2" := (bind c1 (fun x => c2))
  (at level 100, c1 at next level, right associativity) : go_scope.
Notation "c1 ;; c2" := (bind c1 (fun _ => c2))
  (at level 100, right associativity) : go_scope.
Local Open Scope go_scope.

Definition emit (e : event) : M unit := ([e], Ret tt).

(** [os.Exit(code)]: nothing after it runs. *)
Definition os_Exit {A} (code : Z) : M A := ([], Exited code).

Definition trace {A} (m : M A) : list event := fst m.
Definition ending {A} (m : M A) : outcome A := snd m.

Definition log_Print (l : logger) (msg : string) : M unit := emit (EvLog l msg).

(** [l.Fatal(err)]: [Print] followed by [os.Exit(1)]. *)
Definition log_Fatal {A} (l : logger) (err : error) : M A :=
  log_Print l (Error err) ;; os_Exit 1.

(** ** net/http: status codes and what a client sees of a response *)

Module http.

Definition StatusOK : Z := 200.
Definition StatusBadGateway : Z := 502.
Definition StatusGatewayTimeout : Z := 504.

Record Request : Type := mkRequest {
  Request_URL : URL;
  RemoteAddr : string
}.

(** The client-visible response, as a recording response writer keeps it:
    the first [WriteHeader] fixes the status, later ones are ignored; a
    [Write] before any [WriteHeader] implies status 200. *)
Record Response : Type := mkResponse {
  wroteHeader : bool;
  Code : Z;
  Body : string
}.

Definition NewRecorder : Response :=
  {| wroteHeader := false; Code := StatusOK; Body := EmptyString |}.

Definition WriteHeader (code : Z) (rw : Response) : Response :=
  if wroteHeader rw then rw
  else {| wroteHeader := true; Code := code; Body := Body rw |}.

Definition Write (b : string) (rw : Response) : Response :=
  let rw := WriteHeader StatusOK rw in
  {| wroteHeader := true; Code := Code rw; Body := Body rw +:+ b |}.

(** The effect of a trace on the response writer; other events do not
    touch it. *)
Definition apply (rw : Response) (e : event) : Response :=
  match e with
  | EvWriteHeader code => WriteHeader code rw
  | EvWrite b => Write b rw
  | _ => rw
  end.

Definition replay (t : list event) (rw : Response) : Response :=
  fold_left apply t rw.

(** The calls a trace makes on the response writer. *)
Definition onWriter (e : event) : bool :=
  match e with
  | EvWriteHeader _ | EvWrite _ => true
  | _ => false
  end.

End http.

(** ** fingerproxy.go *)

(** [proxyErrorHandler(rw, req, err)]; the calls on [rw] are the
    [EvWriteHeader] and [EvWrite] events of the computation. The error is
    the one [httputil.ReverseProxy] reports, never nil. *)
Definition proxyErrorHandler (req : http.Request) (err : error) : M unit :=
  log_Print ReverseProxyLog
    ("proxy " +:+ URL_String (http.Request_URL req) +:+ " error (from "
       +:+ http.RemoteAddr req +:+ "): " +:+ Error err) ;;
  if Is err DeadlineExceeded || Is err Canceled
  then emit (EvWriteHeader http.StatusGatewayTimeout)
  else emit (EvWriteHeader http.StatusBadGateway).

(** The pure classification the handler applies. *)
Definition isTimeout (err : error) : bool :=
  Is err DeadlineExceeded || Is err Canceled.

(** [InitFingerprint(verboseLogs)] assigns three package variables of
    [fingerprint]; the assignment is one event. *)
Definition InitFingerprint (verboseLogs : bool) : M unit :=
  emit (EvInitFingerprint verboseLogs).

Definition DefaultHeaderInjectors : list reverseproxy.HeaderInjector :=
  [ fingerprint.NewFingerprintHeaderInjector "X-JA3-Fingerprint"
      fingerprint.JA3Fingerprint;
    fingerprint.NewFingerprintHeaderInjector "X-JA4-Fingerprint"
      fingerprint.JA4Fingerprint;
    fingerprint.NewFingerprintHeaderInjector "X-HTTP2-Fingerprint"
      fingerprint.HTTP2Fingerprint ].

(** The package variable [GetHeaderInjectors], at its initial value. *)
Definition GetHeaderInjectors : list reverseproxy.HeaderInjector :=
  DefaultHeaderInjectors.

(** ** strings and strconv *)

Module strings.

Definition lowerByte (c : ascii) : ascii :=
  let n := N_of_ascii c in
  if ((65 <=? n) && (n <=? 90))%N then ascii_of_N (n + 32) else c.

(** [strings.ToLower] on the bytes of the string: the letters A-Z are
    lowered, every other byte is kept. (No rune outside ASCII lowers to one
    of the letters of "true" or "false", so the comparisons of
    [envWithDefaultBool] are decided by this part alone.) *)
Fixpoint ToLower (s : string) : string :=
  match s with
  | EmptyString => EmptyString
  | String c s' => String (lowerByte c) (ToLower s')
  end.

(** The letters of the ASCII alphabet, capital beside small: the table the
    statements read "differs only in case" from. It is written out, and
    does not go through [lowerByte]. *)
Definition letters : list (ascii * ascii) :=
  [
    ("A"%char, "a"%char); ("B"%char, "b"%char); ("C"%char, "c"%char);
    ("D"%char, "d"%char); ("E"%char, "e"%char); ("F"%char, "f"%char);
    ("G"%char, "g"%char); ("H"%char, "h"%char); ("I"%char, "i"%char);
    ("J"%char, "j"%char); ("K"%char, "k"%char); ("L"%char, "l"%char);
    ("M"%char, "m"%char); ("N"%char, "n"%char); ("O"%char, "o"%char);
    ("P"%char, "p"%char); ("Q"%char, "q"%char); ("R"%char, "r"%char);
    ("S"%char, "s"%char); ("T"%char, "t"%char); ("U"%char, "u"%char);
    ("V"%char, "v"%char); ("W"%char, "w"%char); ("X"%char, "x"%char);
    ("Y"%char, "y"%char); ("Z"%char, "z"%char) ].

(** Two bytes that are equal, or the capital and the small form of one
    letter. *)
Definition sameLetter (a b : ascii) : Prop :=
  a = b \/ In (a, b) letters \/ In (b, a) letters.

(** Equality of texts up to the case of ASCII letters, byte by byte. (Not
    Go's [strings.EqualFold], which folds all of Unicode.) *)
Inductive EqualIgnoreCase : string -> string -> Prop :=
| EqualIgnoreCase_nil : EqualIgnoreCase EmptyString EmptyString
| EqualIgnoreCase_cons a b s t :
    sameLetter a b -> EqualIgnoreCase s t ->
    EqualIgnoreCase (String a s) (String b t).

End strings.

Module strconv.

(** [strconv.ParseBool]; [None] stands for its syntax error. *)
Definition ParseBool (str : string) : option bool :=
  if existsb (String.eqb str) ["1"; "t"; "T"; "TRUE"; "true"; "True"]
  then Some true
  else if existsb (String.eqb str) ["0"; "f"; "F"; "FALSE"; "false"; "False"]
  then Some false
  else None.

End strconv.

(** ** Package flag: the command line [CommandLine] with [ExitOnError] *)

Module flag.

Inductive Value : Type :=
| stringValue (s : string)
| boolValue (b : bool).

(** [formal]: the defined flags with their current values; [actual]: the
    [Set] calls that parsing made, oldest first, as (name, text). *)
Record FlagSet : Type := mkFlagSet {
  formal : gmap string Value;
  actual : list (string * string)
}.

Definition NewFlagSet : FlagSet := {| formal := ∅; actual := [] |}.

(** How the first argument reads. *)
Inductive scanned : Type :=
| NotFlag                       (* shorter than 2 or not starting with '-' *)
| Terminator                    (* "--" *)
| BadSyntax
| FlagArg (name : string) (value : option string).

(** Cut at the first '='. *)
Fixpoint cutEq (s : string) : string * option string :=
  match s with
  | EmptyString => (EmptyString, None)
  | String c s' =>
      if Ascii.eqb c "=" then (EmptyString, Some s')
      else let '(n, v) := cutEq s' in (String c n, v)
  end.

(** [name := s[numMinuses:]] and the search of '=' from index 1. *)
Definition scanName (name : string) : scanned :=
  match name with
  | EmptyString => BadSyntax
  | String c name' =>
      if Ascii.eqb c "-" || Ascii.eqb c "=" then BadSyntax
      else let '(n, v) := cutEq name' in FlagArg (String c n) v
  end.

Definition scan (s : string) : scanned :=
  match s with
  | String c0 (String c1 s2 as s1) =>
      if negb (Ascii.eqb c0 "-") then NotFlag
      else if Ascii.eqb c1 "-" then
        match s2 with
        | EmptyString => Terminator
        | _ => scanName s2
        end
      else scanName s1
  | _ => NotFlag
  end.

Inductive parsed : Type :=
| Done (fs : FlagSet) (rest : list string)
| Help                                     (* ErrHelp *)
| Failed (msg : string).

Definition set (name text : string) (v : Value) (fs : FlagSet) : FlagSet :=
  {| formal := <[name := v]> (formal fs);
     actual := actual fs ++ [(name, text)] |}.

(** [FlagSet.Parse]: [parseOne] until it reports no more flags or an error.
    The text of [Failed] names the error; the package prints it with the
    value quoted, ": parse error" after a bad boolean, and a final newline.
    A boolean flag takes its value only from [-name=value]; any other flag
    takes the next argument when it has no [=value]. *)
Fixpoint Parse (fs : FlagSet) (args : list string) : parsed :=
  match args with
  | [] => Done fs []
  | s :: rest =>
      match scan s with
      | NotFlag => Done fs args
      | Terminator => Done fs rest
      | BadSyntax => Failed ("bad flag syntax: " +:+ s)
      | FlagArg name value =>
          match formal fs !! name with
          | None =>
              if String.eqb name "help" || String.eqb name "h" then Help
              else Failed ("flag provided but not defined: -" +:+ name)
          | Some (boolValue _) =>
              match value with
              | Some v =>
                  match strconv.ParseBool v with
                  | Some b => Parse (set name v (boolValue b) fs) rest
                  | None =>
                      Failed ("invalid boolean value " +:+ v +:+ " for -" +:+ name)
                  end
              | None => Parse (set name "true" (boolValue true) fs) rest
              end
          | Some (stringValue _) =>
              match value with
              | Some v => Parse (set name v (stringValue v) fs) rest
              | None =>
                  match rest with
                  | v :: rest' => Parse (set name v (stringValue v) fs) rest'
                  | [] => Failed ("flag needs an argument: -" +:+ name)
                  end
              end
          end
      end
  end.

(** The last [Set] call on a flag, if any. *)
Definition given (name : string) (fs : FlagSet) : option string :=
  snd <$> last (filter (fun nv => nv.1 = name) (actual fs)).

(** [flag.String(name, value, usage)] and [flag.Bool(name, value, usage)]
    define a flag with its default; the pointer they return is read, after
    parsing, with [getString] and [getBool]. *)
Definition String (name value : string) (fs : FlagSet) : FlagSet :=
  {| formal := <[name := stringValue value]> (formal fs); actual := actual fs |}.

Definition Bool (name : string) (value : bool) (fs : FlagSet) : FlagSet :=
  {| formal := <[name := boolValue value]> (formal fs); actual := actual fs |}.

Definition getString (fs : FlagSet) (name : string) : string :=
  match formal fs !! name with
  | Some (stringValue s) => s
  | _ => EmptyString
  end.

Definition getBool (fs : FlagSet) (name : string) : bool :=
  match formal fs !! name with
  | Some (boolValue b) => b
  | _ => false
  end.

End flag.

Arguments flag.getString : simpl never.
Arguments flag.getBool : simpl never.

(** [flag.Parse()] on [os.Args[1:]]: with [ExitOnError] a request for help
    exits with status 0 and any other parse error with status 2, after the
    message and the usage text went to standard error. *)
Definition flag_Parse (fs : flag.FlagSet) (args : list string) : M flag.FlagSet :=
  match flag.Parse fs args with
  | flag.Done fs' _ => ret fs'
  | flag.Help => emit EvUsage ;; os_Exit 0
  | flag.Failed msg => emit (EvStderr msg) ;; emit EvUsage ;; os_Exit 2
  end.

(** ** What the process reads from its surroundings *)

Record Platform : Type := mkPlatform {
  Environ : gmap string string;                       (* os.LookupEnv *)
  Args : list string;                                 (* os.Args[1:] *)
  url_Parse : string -> result URL;                   (* url.Parse *)
  tls_LoadX509KeyPair : string -> string -> result tls.Certificate;
  Serve : proxyserver.Server -> string -> error       (* what ListenAndServe returns *)
}.

Section Process.

Variable os : Platform.

Definition callUrlParse (raw : string) : M (result URL) :=
  let r := url_Parse os raw in
  emit (EvUrlParse raw r) ;; ret r.

Definition callLoadX509KeyPair (certFile keyFile : string)
    : M (result tls.Certificate) :=
  let r := tls_LoadX509KeyPair os certFile keyFile in
  emit (EvLoadX509KeyPair certFile keyFile r) ;; ret r.

Definition DefaultTLSConfig (certFile keyFile : string) : M (result tls.Config) :=
  let conf :=
    {| tls.NextProtos := ["h2"; "http/1.1"];
       tls.MinVersion := tls.VersionTLS12;
       tls.MaxVersion := tls.VersionTLS13;
       tls.Certificates := [] |} in
  r <- callLoadX509KeyPair certFile keyFile ;;
  match r with
  | Err err => ret (Err err)
  | Ok tlsCert =>
      ret (Ok {| tls.NextProtos := tls.NextProtos conf;
                 tls.MinVersion := tls.MinVersion conf;
                 tls.MaxVersion := tls.MaxVersion conf;
                 tls.Certificates := [tlsCert] |})
  end.

Definition StartPrometheusClient (listenAddr : string) : M unit :=
  log_Print PrometheusLog ("server listening on " +:+ listenAddr) ;;
  emit (EvGoListenAndServe listenAddr).

Definition DefaultReverseProxyHTTPHandler (forwardTo : URL)
    : reverseproxy.HTTPHandler :=
  reverseproxy.NewHTTPHandler
    forwardTo
    {| reverseproxy.ErrorLog := ReverseProxyLog;
       reverseproxy.FlushInterval := ReverseProxyFlushInterval;
       reverseproxy.ErrorHandler := reverseproxy.proxyErrorHandlerFunc |}
    GetHeaderInjectors.

(** The package variable [GetReverseProxyHTTPHandler], at its initial value. *)
Definition GetReverseProxyHTTPHandler (forwardTo : URL)
    : reverseproxy.HTTPHandler :=
  DefaultReverseProxyHTTPHandler forwardTo.

Definition DefaultProxyServer (handler : reverseproxy.HTTPHandler)
    (tlsConfig : tls.Config) (verboseLogs : bool) : M proxyserver.Server :=
  emit EvNotifyContext ;;
  ret {| proxyserver.Handler := handler;
         proxyserver.TLSConfig := tlsConfig;
         proxyserver.VerboseLogs := verboseLogs;
         proxyserver.ErrorLog := ProxyServerLog;
         proxyserver.HTTPServer_ErrorLog := HTTPServerLog;
         proxyserver.MetricsRegistry := PrometheusRegistry;
         proxyserver.HTTPServer_IdleTimeout := HTTPIdleTimeout;
         proxyserver.HTTPServer_ReadTimeout := HTTPReadTimeout;
         proxyserver.HTTPServer_WriteTimeout := HTTPWriteTimeout;
         proxyserver.TLSHandshakeTimeout := TLSHandshakeTimeout |}.

Definition envWithDefault (key defaultVal : string) : string :=
  match Environ os !! key with
  | Some envVal => envVal
  | None => defaultVal
  end.

Definition envWithDefaultBool (key : string) (defaultVal : bool) : bool :=
  match Environ os !! key with
  | Some envVal =>
      if String.eqb (strings.ToLower envVal) "true" then true
      else if String.eqb (strings.ToLower envVal) "false" then false
      else defaultVal
  | None => defaultVal
  end.

(** The flag definitions of [Run], in its order. *)
Definition defineFlags : flag.FlagSet :=
  let fs := flag.NewFlagSet in
  let fs := flag.String "listen-addr" (envWithDefault "LISTEN_ADDR" ":443") fs in
  let fs := flag.String "forward-url"
              (envWithDefault "FORWARD_URL" "http://localhost:80") fs in
  let fs := flag.String "cert-filename" (envWithDefault "CERT_FILENAME" "tls.crt") fs in
  let fs := flag.String "certkey-filename"
              (envWithDefault "CERTKEY_FILENAME" "tls.key") fs in
  let fs := flag.String "metrics-listen-addr"
              (envWithDefault "METRICS_LISTEN_ADDR" ":9035") fs in
  let fs := flag.Bool "enable-kubernetes-probe"
              (envWithDefaultBool "ENABLE_KUBERNETES_PROBE" true) fs in
  let fs := flag.Bool "verbose" (envWithDefaultBool "VERBOSE" false) fs in
  let fs := flag.Bool "version" false fs in
  fs.

Definition Run : M unit :=
  fs <- flag_Parse defineFlags (Args os) ;;
  let flagListenAddr := flag.getString fs "listen-addr" in
  let flagForwardURL := flag.getString fs "forward-url" in
  let flagCertFilename := flag.getString fs "cert-filename" in
  let flagKeyFilename := flag.getString fs "certkey-filename" in
  let flagMetricsListenAddr := flag.getString fs "metrics-listen-addr" in
  let flagEnableKubernetesProbe := flag.getBool fs "enable-kubernetes-probe" in
  let flagVerboseLogs := flag.getBool fs "verbose" in
  let flagVersion := flag.getBool fs "version" in

  (if flagVersion then
     emit (EvStderr "Fingerproxy - https://github.com/wi1dcard/fingerproxy
") ;;
     emit (EvStderr ("Version: " +:+ BuildTag +:+ " (" +:+ BuildCommit +:+ ")
")) ;;
     os_Exit 0
   else ret tt) ;;

  r <- callUrlParse flagForwardURL ;;
  forwardTo <- match r with
               | Err err => log_Fatal DefaultLog err
               | Ok forwardTo => ret forwardTo
               end ;;

  r <- DefaultTLSConfig flagCertFilename flagKeyFilename ;;
  tlsConfig <- match r with
               | Err err => log_Fatal DefaultLog err
               | Ok tlsConfig => ret tlsConfig
               end ;;

  InitFingerprint flagVerboseLogs ;;

  let handler := GetReverseProxyHTTPHandler forwardTo in
  let handler :=
    if flagEnableKubernetesProbe
    then {| reverseproxy.To := reverseproxy.To handler;
            reverseproxy.Proxy := reverseproxy.Proxy handler;
            reverseproxy.HeaderInjectors := reverseproxy.HeaderInjectors handler;
            reverseproxy.IsProbeRequest :=
              Some reverseproxy.IsKubernetesProbeRequest |}
    else handler in

  server <- DefaultProxyServer handler tlsConfig flagVerboseLogs ;;

  StartPrometheusClient flagMetricsListenAddr ;;
  emit EvStartDebugServer ;;

  log_Print DefaultLog ("server listening on " +:+ flagListenAddr) ;;
  let err := Serve os server flagListenAddr in
  emit (EvListenAndServe server flagListenAddr err) ;;
  log_Print DefaultLog (Error err).

End Process.

(** A platform for examples: the given environment and command line, a
    [url.Parse] that accepts everything but a string with a control
    character at its head, certificate files that load, and a listener that
    ends with the given error. *)
Definition examplePlatform (environ : list (string * string)) (args : list string)
    : Platform :=
  {| Environ := list_to_map environ;
     Args := args;
     url_Parse := fun raw =>
       match raw with
       | String "000" _ =>
           Err (errors.New "parse: net/url: invalid control character in URL")
       | _ => Ok (mkURL raw)
       end;
     tls_LoadX509KeyPair := fun certFile keyFile =>
       if String.eqb certFile "missing.crt"
       then Err (errors.New "open missing.crt: no such file or directory")
       else Ok (tls.mkCertificate [certFile] keyFile);
     Serve := fun _ _ => errors.New "http: Server closed" |}.

(** What a client observes of a computation that writes to a fresh response
    writer, and the calls the computation makes on the writer. *)
Definition respond {A} (m : M A) : http.Response :=
  http.replay (trace m) http.NewRecorder.

Definition rwCalls {A} (m : M A) : list event :=
  List.filter http.onWriter (trace m).

(** Two errors that [proxyErrorHandler] is to treat alike: both are (or
    wrap) a deadline or a cancellation, or neither is. *)
Definition sameClass (err1 err2 : error) : Prop :=
  (wraps err1 DeadlineExceeded \/ wraps err1 Canceled) <->
  (wraps err2 DeadlineExceeded \/ wraps err2 Canceled).

(** [holds v0 v text]: [v] is what a [Set(text)] leaves in a flag that was
    defined with [v0]. *)
Definition holds (v0 v : flag.Value) (text : string) : Prop :=
  match v0 with
  | flag.stringValue _ => v = flag.stringValue text
  | flag.boolValue _ =>
      exists b, strconv.ParseBool text = Some b /\ v = flag.boolValue b
  end.

(** [tracks fs0 fs]: every flag of [fs] holds the text of its last [Set]
    call, and its value in [fs0] when there was none. *)
Definition tracks (fs0 fs : flag.FlagSet) : Prop :=
  forall name,
    match flag.given name fs with
    | Some text =>
        exists v0 v, flag.formal fs0 !! name = Some v0 /\
                     flag.formal fs !! name = Some v /\ holds v0 v text
    | None => flag.formal fs !! name = flag.formal fs0 !! name
    end.

(** ** The settings of the process, as the documentation lists them *)

(** Flag name, environment variable and documented default of the settings
    that are strings, and of those that are booleans. *)
Definition stringSettings : list (string * string * string) :=
  [ ("listen-addr", "LISTEN_ADDR", ":443");
    ("forward-url", "FORWARD_URL", "http://localhost:80");
    ("cert-filename", "CERT_FILENAME", "tls.crt");
    ("certkey-filename", "CERTKEY_FILENAME", "tls.key");
    ("metrics-listen-addr", "METRICS_LISTEN_ADDR", ":9035") ].

Definition boolSettings : list (string * string * bool) :=
  [ ("enable-kubernetes-probe", "ENABLE_KUBERNETES_PROBE", true);
    ("verbose", "VERBOSE", false) ].

(** Flag first, then environment, then default. *)
Definition resolveString (os : Platform) (fs : flag.FlagSet)
    (name key defaultVal : string) : string :=
  match flag.given name fs with
  | Some text => text
  | None =>
      match Environ os !! key with
      | Some envVal => envVal
      | None => defaultVal
      end
  end.

(** The same for a boolean setting: the flag's text read by
    [strconv.ParseBool]; else the variable when it reads "true" or "false"
    in any mix of cases; else the default. *)
Inductive resolvesBool (os : Platform) (fs : flag.FlagSet)
    (name key : string) (defaultVal : bool) : bool -> Prop :=
| resolves_flag text b :
    flag.given name fs = Some text -> strconv.ParseBool text = Some b ->
    resolvesBool os fs name key defaultVal b
| resolves_env_true envVal :
    flag.given name fs = None -> Environ os !! key = Some envVal ->
    strings.EqualIgnoreCase envVal "true" ->
    resolvesBool os fs name key defaultVal true
| resolves_env_false envVal :
    flag.given name fs = None -> Environ os !! key = Some envVal ->
    strings.EqualIgnoreCase envVal "false" ->
    resolvesBool os fs name key defaultVal false
| resolves_default :
    flag.given name fs = None ->
    (forall envVal, Environ os !! key = Some envVal ->
       ~ strings.EqualIgnoreCase envVal "true" /\ ~ strings.EqualIgnoreCase envVal "false") ->
    resolvesBool os fs name key defaultVal defaultVal.

(** The reading under which a boolean setting without its flag takes its
    value from the environment variable whenever the variable is set:
    [interp] is how the variable's text is read as a boolean. *)
Definition envDecidesWhenSet (interp : string -> bool) : Prop :=
  forall os fs rest name key defaultVal,
    flag.Parse (defineFlags os) (Args os) = flag.Done fs rest ->
    In (name, key, defaultVal) boolSettings ->
    flag.given name fs = None ->
    forall envVal, Environ os !! key = Some envVal ->
      flag.getBool fs name = interp envVal.

(** The events of [Run] past the version check. *)
Definition startsWork (e : event) : bool :=
  match e with
  | EvUrlParse _ _ | EvLoadX509KeyPair _ _ _ | EvInitFingerprint _
  | EvNotifyContext | EvGoListenAndServe _ | EvStartDebugServer
  | EvListenAndServe _ _ _ => true
  | _ => false
  end.

(** The five ways [Run] can go. *)
Inductive RunCase (os : Platform) : Prop :=
| RunFlagError :
    (forall fs rest, flag.Parse (defineFlags os) (Args os) <> flag.Done fs rest) ->
    (forall e, In e (trace (Run os)) -> startsWork e = false) ->
    RunCase os
| RunVersion fs rest :
    flag.Parse (defineFlags os) (Args os) = flag.Done fs rest ->
    flag.getBool fs "version" = true ->
    RunCase os
| RunUrlError fs rest err :
    flag.Parse (defineFlags os) (Args os) = flag.Done fs rest ->
    flag.getBool fs "version" = false ->
    url_Parse os (flag.getString fs "forward-url") = Err err ->
    RunCase os
| RunTlsError fs rest forwardTo err :
    flag.Parse (defineFlags os) (Args os) = flag.Done fs rest ->
    flag.getBool fs "version" = false ->
    url_Parse os (flag.getString fs "forward-url") = Ok forwardTo ->
    tls_LoadX509KeyPair os (flag.getString fs "cert-filename")
      (flag.getString fs "certkey-filename") = Err err ->
    RunCase os
| RunServes fs rest forwardTo tlsCert :
    flag.Parse (defineFlags os) (Args os) = flag.Done fs rest ->
    flag.getBool fs "version" = false ->
    url_Parse os (flag.getString fs "forward-url") = Ok forwardTo ->
    tls_LoadX509KeyPair os (flag.getString fs "cert-filename")
      (flag.getString fs "certkey-filename") = Ok tlsCert ->
    RunCase os.

(** The calls of [Run] that start a listener: [go http.ListenAndServe] for
    the metrics (a goroutine; whether it binds is not reported back),
    [debug.StartDebugServer()], and [server.ListenAndServe], whose event
    carries the error it returned (which may be a bind error). *)
Definition listenerCall (e : event) : bool :=
  match e with
  | EvGoListenAndServe _ | EvStartDebugServer | EvListenAndServe _ _ _ => true
  | _ => false
  end.

(** A library call of [Run] that reported an error. *)
Definition failedCall (e : event) : bool :=
  match e with
  | EvUrlParse _ (Err _) | EvLoadX509KeyPair _ _ (Err _) => true
  | _ => false
  end.

(** The server that [Run] hands to [ListenAndServe], written out: the
    handler of [GetReverseProxyHTTPHandler] after the probe assignment,
    inside the server of [DefaultProxyServer], for the parsed flags [fs],
    the parsed forward URL and the loaded certificate. *)
Definition builtServer (fs : flag.FlagSet) (forwardTo : URL)
    (tlsCert : tls.Certificate) : proxyserver.Server :=
  {| proxyserver.Handler :=
       {| reverseproxy.To := forwardTo;
          reverseproxy.Proxy :=
            {| reverseproxy.ErrorLog := ReverseProxyLog;
               reverseproxy.FlushInterval := ReverseProxyFlushInterval;
               reverseproxy.ErrorHandler := reverseproxy.proxyErrorHandlerFunc |};
          reverseproxy.HeaderInjectors := GetHeaderInjectors;
          reverseproxy.IsProbeRequest :=
            if flag.getBool fs "enable-kubernetes-probe"
            then Some reverseproxy.IsKubernetesProbeRequest else None |};
     proxyserver.TLSConfig :=
       {| tls.NextProtos := ["h2"; "http/1.1"];
          tls.MinVersion := tls.VersionTLS12;
          tls.MaxVersion := tls.VersionTLS13;
          tls.Certificates := [tlsCert] |};
     proxyserver.VerboseLogs := flag.getBool fs "verbose";
     proxyserver.ErrorLog := ProxyServerLog;
     proxyserver.HTTPServer_ErrorLog := HTTPServerLog;
     proxyserver.MetricsRegistry := PrometheusRegistry;
     proxyserver.HTTPServer_IdleTimeout := HTTPIdleTimeout;
     proxyserver.HTTPServer_ReadTimeout := HTTPReadTimeout;
     proxyserver.HTTPServer_WriteTimeout := HTTPWriteTimeout;
     proxyserver.TLSHandshakeTimeout := TLSHandshakeTimeout |}.

(** The events of a run that gets to serve. *)
Definition servingTrace (os : Platform) (fs : flag.FlagSet) (forwardTo : URL)
    (tlsCert : tls.Certificate) : list event :=
  [ EvUrlParse (flag.getString fs "forward-url") (Ok forwardTo);
    EvLoadX509KeyPair (flag.getString fs "cert-filename")
      (flag.getString fs "certkey-filename") (Ok tlsCert);
    EvInitFingerprint (flag.getBool fs "verbose");
    EvNotifyContext;
    EvLog PrometheusLog
      ("server listening on " +:+ flag.getString fs "metrics-listen-addr");
    EvGoListenAndServe (flag.getString fs "metrics-listen-addr");
    EvStartDebugServer;
    EvLog DefaultLog ("server listening on " +:+ flag.getString fs "listen-addr");
    EvListenAndServe (builtServer fs forwardTo tlsCert)
      (flag.getString fs "listen-addr")
      (Serve os (builtServer fs forwardTo tlsCert) (flag.getString fs "listen-addr"));
    EvLog DefaultLog
      (Error (Serve os (builtServer fs forwardTo tlsCert)
                (flag.getString fs "listen-addr"))) ].

(** [Run], by the way it goes: what it did and how it ended. *)
Inductive RunShape (os : Platform) : Prop :=
| ShapeHelp :
    flag.Parse (defineFlags os) (Args os) = flag.Help ->
    Run os = ([EvUsage], Exited 0) -> RunShape os
| ShapeFlagError msg :
    flag.Parse (defineFlags os) (Args os) = flag.Failed msg ->
    Run os = ([EvStderr msg; EvUsage], Exited 2) -> RunShape os
| ShapeVersion fs rest t :
    flag.Parse (defineFlags os) (Args os) = flag.Done fs rest ->
    flag.getBool fs "version" = true ->
    (forall e, In e t -> exists s, e = EvStderr s) ->
    Run os = (t, Exited 0) -> RunShape os
| ShapeUrlError fs rest err :
    flag.Parse (defineFlags os) (Args os) = flag.Done fs rest ->
    flag.getBool fs "version" = false ->
    url_Parse os (flag.getString fs "forward-url") = Err err ->
    Run os = ([EvUrlParse (flag.getString fs "forward-url") (Err err);
               EvLog DefaultLog (Error err)], Exited 1) -> RunShape os
| ShapeTlsError fs rest forwardTo err :
    flag.Parse (defineFlags os) (Args os) = flag.Done fs rest ->
    flag.getBool fs "version" = false ->
    url_Parse os (flag.getString fs "forward-url") = Ok forwardTo ->
    tls_LoadX509KeyPair os (flag.getString fs "cert-filename")
      (flag.getString fs "certkey-filename") = Err err ->
    Run os = ([EvUrlParse (flag.getString fs "forward-url") (Ok forwardTo);
               EvLoadX509KeyPair (flag.getString fs "cert-filename")
                 (flag.getString fs "certkey-filename") (Err err);
               EvLog DefaultLog (Error err)], Exited 1) -> RunShape os
| ShapeServes fs rest forwardTo tlsCert :
    flag.Parse (defineFlags os) (Args os) = flag.Done fs rest ->
    flag.getBool fs "version" = false ->
    url_Parse os (flag.getString fs "forward-url") = Ok forwardTo ->
    tls_LoadX509KeyPair os (flag.getString fs "cert-filename")
      (flag.getString fs "certkey-filename") = Ok tlsCert ->
    Run os = (servingTrace os fs forwardTo tlsCert, Ret tt) -> RunShape os.

(** * Properties *)

(** ** The monad *)

Lemma trace_bind {A B} (m : M A) (f : A -> M B) :
  trace (bind m f) =
  match ending m with
  | Ret a => (trace m ++ trace (f a))%list
  | Exited _ => trace m
  end.
Proof.
  destruct m as [t [a | c]]; simpl; [| reflexivity].
  destruct (f a) as [t' o]. reflexivity.
Qed.

Lemma ending_bind {A B} (m : M A) (f : A -> M B) :
  ending (bind m f) =
  match ending m with
  | Ret a => ending (f a)
  | Exited c => Exited c
  end.
Proof.
  destruct m as [t [a | c]]; simpl; [| reflexivity].
  destruct (f a) as [t' o]. reflexivity.
Qed.

(** ** [errors.Is] computes "is or wraps" *)

Lemma matches_Is e target : matches e target -> Is e target = true.
Proof.
  intros [-> | Hm].
  - simpl. apply bool_decide_eq_true. reflexivity.
  - destruct e; simpl in *; try discriminate; rewrite Hm; reflexivity.
Qed.

Lemma wraps_Is err target : wraps err target -> Is err target = true.
Proof.
  intros (e & Hchain & Hm).
  induction Hchain as [e | msg isM inner e _ IH | msg isM errs e' e Hin _ IH].
  - apply matches_Is, Hm.
  - simpl. rewrite (IH Hm). apply orb_true_r.
  - simpl. apply orb_true_iff. right.
    apply existsb_exists. exists e'. split; [exact Hin | exact (IH Hm)].
Qed.

Lemma Is_wraps err target : Is err target = true -> wraps err target.
Proof.
  induction err as [s | msg isM | msg isM inner IH | msg isM errs IH]
    using error_nested_ind; simpl; intros H.
  - apply bool_decide_eq_true in H. subst s.
    exists (Sentinel target). split; [constructor | left; reflexivity].
  - exists (Opaque msg isM). split; [constructor | right; exact H].
  - apply orb_true_iff in H as [H | H].
    + exists (Wrap msg isM inner). split; [constructor | right; exact H].
    + destruct (IH H) as (e & Hc & Hm).
      exists e. split; [apply inChain_wrap, Hc | exact Hm].
  - apply orb_true_iff in H as [H | H].
    + exists (Join msg isM errs). split; [constructor | right; exact H].
    + apply existsb_exists in H as (e' & Hin & He').
      rewrite List.Forall_forall in IH.
      destruct (IH e' Hin He') as (e & Hc & Hm).
      exists e. split; [eapply inChain_join; eassumption | exact Hm].
Qed.

Lemma Is_iff_wraps err target : Is err target = true <-> wraps err target.
Proof. split; [apply Is_wraps | apply wraps_Is]. Qed.

Lemma isTimeout_iff err :
  isTimeout err = true <-> wraps err DeadlineExceeded \/ wraps err Canceled.
Proof.
  unfold isTimeout. rewrite orb_true_iff, !Is_iff_wraps. reflexivity.
Qed.

Lemma proxyErrorHandler_unfold req err :
  proxyErrorHandler req err =
  ([EvLog ReverseProxyLog
      ("proxy " +:+ URL_String (http.Request_URL req) +:+ " error (from "
         +:+ http.RemoteAddr req +:+ "): " +:+ Error err);
    EvWriteHeader (if isTimeout err then http.StatusGatewayTimeout
                   else http.StatusBadGateway)],
   Ret tt).
Proof.
  unfold proxyErrorHandler, isTimeout.
  destruct (Is err DeadlineExceeded || Is err Canceled); reflexivity.
Qed.

(** C1. The error handler answers 504 (gateway timeout) exactly when the
    forwarding error is, or wraps in the sense of [errors.Is], the context's
    deadline-exceeded or cancellation error, and 502 (bad gateway) for every
    other error: that one [WriteHeader] is its only call on the response
    writer, and it is the status a client of a fresh writer receives. *)
Theorem proxyErrorHandler_status (req : http.Request) (err : error) :
  (wraps err DeadlineExceeded \/ wraps err Canceled ->
     rwCalls (proxyErrorHandler req err) = [EvWriteHeader 504] /\
     http.Code (respond (proxyErrorHandler req err)) = 504) /\
  (~ (wraps err DeadlineExceeded \/ wraps err Canceled) ->
     rwCalls (proxyErrorHandler req err) = [EvWriteHeader 502] /\
     http.Code (respond (proxyErrorHandler req err)) = 502) /\
  (http.Code (respond (proxyErrorHandler req err)) = http.StatusGatewayTimeout
     <-> wraps err DeadlineExceeded \/ wraps err Canceled).
Proof.
  rewrite <- isTimeout_iff, proxyErrorHandler_unfold.
  unfold rwCalls, respond, trace. simpl.
  destruct (isTimeout err); simpl; repeat split;
    intros; try reflexivity; try discriminate; try congruence.
Qed.

(** A dial timeout of package [net] ("i/o timeout", whose [Is] method answers
    for the context's deadline error) inside a [*url.Error]: 504. A refused
    connection: 502. The text of either error is only in the log line. *)
Example proxyErrorHandler_dial_timeout :
  proxyErrorHandler (http.mkRequest (mkURL "/api") "10.0.0.1:4711")
    (Wrap "Get http://b/api: i/o timeout" noIs
       (Opaque "i/o timeout" (fun t => bool_decide (t = DeadlineExceeded)))) =
  ([EvLog ReverseProxyLog
      "proxy /api error (from 10.0.0.1:4711): Get http://b/api: i/o timeout";
    EvWriteHeader 504], Ret tt).
Proof. reflexivity. Qed.

Example proxyErrorHandler_refused :
  proxyErrorHandler (http.mkRequest (mkURL "/api") "10.0.0.1:4711")
    (errors.New "dial tcp 10.0.0.9:80: connection refused") =
  ([EvLog ReverseProxyLog
      "proxy /api error (from 10.0.0.1:4711): dial tcp 10.0.0.9:80: connection refused";
    EvWriteHeader 502], Ret tt).
Proof. reflexivity. Qed.

Example proxyErrorHandler_joined_cancel :
  respond (proxyErrorHandler (http.mkRequest (mkURL "/") "[::1]:9")
             (Join "a; b" noIs [errors.New "a"; Errorf_w "b" (Sentinel Canceled)])) =
  {| http.wroteHeader := true; http.Code := 504; http.Body := EmptyString |}.
Proof. reflexivity. Qed.

(** C2. The error handler calls nothing but [WriteHeader] on the response
    writer: no [Write] occurs, the body of the response stays what it was,
    and two errors of the same class (both timeouts, or both not) leave the
    same client-visible response, whatever their texts. The text of the
    error goes to the log only. *)
Theorem proxyErrorHandler_no_leak (req : http.Request) (err : error)
    (rw : http.Response) :
  (forall b, ~ In (EvWrite b) (trace (proxyErrorHandler req err))) /\
  (exists code, rwCalls (proxyErrorHandler req err) = [EvWriteHeader code]) /\
  http.Body (http.replay (trace (proxyErrorHandler req err)) rw) = http.Body rw /\
  (forall err', sameClass err err' ->
     http.replay (trace (proxyErrorHandler req err)) rw =
     http.replay (trace (proxyErrorHandler req err')) rw).
Proof.
  rewrite proxyErrorHandler_unfold. unfold rwCalls, trace. simpl.
  split; [| split; [| split]].
  - intros b [H | [H | []]]; discriminate.
  - eexists. reflexivity.
  - unfold http.WriteHeader. destruct (http.wroteHeader rw); reflexivity.
  - intros err' Hclass. rewrite proxyErrorHandler_unfold. simpl.
    unfold sameClass in Hclass. rewrite <- !isTimeout_iff in Hclass.
    destruct (isTimeout err), (isTimeout err'); try reflexivity.
    + destruct Hclass as [H _]. specialize (H eq_refl). discriminate.
    + destruct Hclass as [_ H]. specialize (H eq_refl). discriminate.
Qed.

(** Two different backend failures, with different texts, give one response. *)
Lemma proxyErrorHandler_no_leak_witness :
  respond (proxyErrorHandler (http.mkRequest (mkURL "/a") "10.0.0.1:4711")
             (errors.New "dial tcp 10.0.0.9:80: connection refused")) =
  respond (proxyErrorHandler (http.mkRequest (mkURL "/a") "10.0.0.1:4711")
             (errors.Errorf_w "lookup backend" (errors.New "no such host"))).
Proof.
  unfold respond.
  apply (proxyErrorHandler_no_leak
           (http.mkRequest (mkURL "/a") "10.0.0.1:4711")
           (errors.New "dial tcp 10.0.0.9:80: connection refused")
           http.NewRecorder).
  unfold sameClass. rewrite <- !isTimeout_iff. vm_compute. tauto.
Defined.

(** ** The default header injectors *)

(** C9. [DefaultHeaderInjectors], the initial value of [GetHeaderInjectors],
    is a list of exactly three injectors, JA3 then JA4 then HTTP/2, under
    the header names X-JA3-Fingerprint, X-JA4-Fingerprint and
    X-HTTP2-Fingerprint, which are pairwise distinct and not empty. *)
Theorem DefaultHeaderInjectors_fixed :
  GetHeaderInjectors = DefaultHeaderInjectors /\
  length DefaultHeaderInjectors = 3%nat /\
  map fingerprint.Fingerprint DefaultHeaderInjectors =
    [fingerprint.JA3Fingerprint; fingerprint.JA4Fingerprint;
     fingerprint.HTTP2Fingerprint] /\
  map fingerprint.HeaderName DefaultHeaderInjectors =
    ["X-JA3-Fingerprint"; "X-JA4-Fingerprint"; "X-HTTP2-Fingerprint"] /\
  NoDup (map fingerprint.HeaderName DefaultHeaderInjectors) /\
  Forall (fun name => name <> EmptyString) (map fingerprint.HeaderName DefaultHeaderInjectors).
Proof.
  repeat split.
  - apply (bool_decide_unpack _). vm_compute. exact I.
  - simpl. repeat (apply List.Forall_cons; [discriminate |]). apply List.Forall_nil.
Qed.

(** ** The TLS configuration *)

Lemma DefaultTLSConfig_unfold os certFile keyFile :
  DefaultTLSConfig os certFile keyFile =
  ([EvLoadX509KeyPair certFile keyFile (tls_LoadX509KeyPair os certFile keyFile)],
   Ret match tls_LoadX509KeyPair os certFile keyFile with
       | Err err => Err err
       | Ok tlsCert =>
           Ok {| tls.NextProtos := ["h2"; "http/1.1"];
                 tls.MinVersion := tls.VersionTLS12;
                 tls.MaxVersion := tls.VersionTLS13;
                 tls.Certificates := [tlsCert] |}
       end).
Proof.
  unfold DefaultTLSConfig, callLoadX509KeyPair.
  destruct (tls_LoadX509KeyPair os certFile keyFile); reflexivity.
Qed.

(** C4. Whatever the certificate and key file names, a configuration that
    [DefaultTLSConfig] returns offers the application protocols h2 and then
    http/1.1, and no other, and bounds the protocol version by TLS 1.2
    (0x0303) from below and TLS 1.3 (0x0304) from above. *)
Theorem DefaultTLSConfig_protocols (os : Platform) (certFile keyFile : string)
    (conf : tls.Config) :
  ending (DefaultTLSConfig os certFile keyFile) = Ret (Ok conf) ->
  tls.NextProtos conf = ["h2"; "http/1.1"] /\
  tls.MinVersion conf = tls.VersionTLS12 /\ tls.VersionTLS12 = 0x0303 /\
  tls.MaxVersion conf = tls.VersionTLS13 /\ tls.VersionTLS13 = 0x0304.
Proof.
  rewrite DefaultTLSConfig_unfold. unfold ending. simpl.
  destruct (tls_LoadX509KeyPair os certFile keyFile); intros H;
    inversion H; subst. repeat split.
Qed.

Lemma DefaultTLSConfig_protocols_witness :
  exists conf,
    ending (DefaultTLSConfig (examplePlatform [] []) "tls.crt" "tls.key") = Ret (Ok conf) /\
    tls.NextProtos conf = ["h2"; "http/1.1"] /\
    tls.MinVersion conf = 771 /\ tls.MaxVersion conf = 772.
Proof.
  eexists. split; [reflexivity |].
  destruct (DefaultTLSConfig_protocols (examplePlatform [] []) "tls.crt" "tls.key" _ eq_refl)
    as (Hp & Hmin & _ & Hmax & _).
  repeat split; assumption.
Defined.

(** C5. [DefaultTLSConfig] always returns; it returns an error, and then no
    configuration, exactly when [tls.LoadX509KeyPair] fails on the two
    files, and the error is the loader's; a configuration it returns holds
    exactly one certificate, the one that was loaded. *)
Theorem DefaultTLSConfig_error_iff (os : Platform) (certFile keyFile : string) :
  (exists r, ending (DefaultTLSConfig os certFile keyFile) = Ret r /\
             (isErr r = true <-> isErr (tls_LoadX509KeyPair os certFile keyFile) = true)) /\
  (forall err, ending (DefaultTLSConfig os certFile keyFile) = Ret (Err err) <->
               tls_LoadX509KeyPair os certFile keyFile = Err err) /\
  (forall conf, ending (DefaultTLSConfig os certFile keyFile) = Ret (Ok conf) ->
     length (tls.Certificates conf) = 1%nat /\
     exists tlsCert, tls_LoadX509KeyPair os certFile keyFile = Ok tlsCert /\
                     tls.Certificates conf = [tlsCert]).
Proof.
  rewrite DefaultTLSConfig_unfold. unfold ending. simpl.
  destruct (tls_LoadX509KeyPair os certFile keyFile) as [tlsCert | e].
  - split; [| split].
    + eexists. split; [reflexivity | reflexivity].
    + intros err. split; intros H; discriminate.
    + intros conf H. inversion H; subst. simpl. split; [reflexivity |].
      exists tlsCert. split; reflexivity.
  - split; [| split].
    + eexists. split; [reflexivity | reflexivity].
    + intros err. split; intros H; inversion H; reflexivity.
    + intros conf H. discriminate.
Qed.

(** ** The environment helpers *)

Lemma lowerByte_idem c : strings.lowerByte (strings.lowerByte c) = strings.lowerByte c.
Proof.
  destruct c as [[] [] [] [] [] [] [] []]; reflexivity.
Qed.

Lemma ToLower_idem s : strings.ToLower (strings.ToLower s) = strings.ToLower s.
Proof.
  induction s as [| c s IH]; simpl; [reflexivity |].
  rewrite lowerByte_idem, IH. reflexivity.
Qed.

(** Membership in the table of letters, and equality up to case, of texts
    that are written out. *)
Ltac in_letters := solve [simpl; repeat (first [left; reflexivity | right])].
Ltac same_letter :=
  first [left; reflexivity | right; left; in_letters | right; right; in_letters].
Ltac equal_ignore_case := repeat (constructor; [same_letter |]); constructor.

(** [lowerByte] agrees with the table of letters: it maps a byte to itself
    or to the small form of the capital it is, and the two forms of a letter
    to the same byte. *)
Lemma lowerByte_sameLetter a : strings.sameLetter a (strings.lowerByte a).
Proof.
  destruct a as [[] [] [] [] [] [] [] []];
    first [ left; reflexivity
          | right; left; solve [simpl; repeat (first [left; reflexivity | right])] ].
Qed.

Lemma sameLetter_lowerByte a b :
  strings.sameLetter a b -> strings.lowerByte a = strings.lowerByte b.
Proof.
  intros [-> | [H | H]]; [reflexivity | |]; simpl in H;
    repeat (destruct H as [H | H]; [injection H as <- <-; reflexivity |]);
    destruct H.
Qed.

(** Against a string that is already in lower case, [ToLower] followed by
    [==] is the case-insensitive comparison. *)
Lemma ToLower_EqualIgnoreCase (t : string) :
  strings.ToLower t = t ->
  forall s, strings.ToLower s = t <-> strings.EqualIgnoreCase s t.
Proof.
  induction t as [| b t IH]; intros Ht s.
  - destruct s as [| a s]; simpl; split; intros H;
      first [ constructor | discriminate | inversion H ].
  - simpl in Ht. injection Ht as Hb Ht.
    destruct s as [| a s]; simpl; split; intros H.
    + discriminate.
    + inversion H.
    + injection H as Ha Hs. constructor.
      * rewrite <- Ha. apply lowerByte_sameLetter.
      * apply (IH Ht). exact Hs.
    + inversion H as [| a' b' s' t' Hab Hst]; subst.
      f_equal.
      * rewrite (sameLetter_lowerByte a b Hab). exact Hb.
      * apply (IH Ht). exact Hst.
Qed.

Lemma eqb_ToLower_EqualIgnoreCase (t s : string) :
  strings.ToLower t = t ->
  String.eqb (strings.ToLower s) t = true <-> strings.EqualIgnoreCase s t.
Proof.
  intros Ht. rewrite String.eqb_eq. apply ToLower_EqualIgnoreCase, Ht.
Qed.

Lemma envWithDefaultBool_unset os key defaultVal :
  Environ os !! key = None -> envWithDefaultBool os key defaultVal = defaultVal.
Proof. unfold envWithDefaultBool. intros ->. reflexivity. Qed.

Lemma envWithDefaultBool_true os key defaultVal envVal :
  Environ os !! key = Some envVal -> strings.EqualIgnoreCase envVal "true" ->
  envWithDefaultBool os key defaultVal = true.
Proof.
  unfold envWithDefaultBool. intros -> H.
  apply (eqb_ToLower_EqualIgnoreCase "true") in H; [| reflexivity].
  rewrite H. reflexivity.
Qed.

Lemma envWithDefaultBool_false os key defaultVal envVal :
  Environ os !! key = Some envVal -> strings.EqualIgnoreCase envVal "false" ->
  envWithDefaultBool os key defaultVal = false.
Proof.
  unfold envWithDefaultBool. intros -> H.
  apply (eqb_ToLower_EqualIgnoreCase "false") in H; [| reflexivity].
  apply String.eqb_eq in H. rewrite H. reflexivity.
Qed.

Lemma envWithDefaultBool_other os key defaultVal envVal :
  Environ os !! key = Some envVal ->
  ~ strings.EqualIgnoreCase envVal "true" -> ~ strings.EqualIgnoreCase envVal "false" ->
  envWithDefaultBool os key defaultVal = defaultVal.
Proof.
  unfold envWithDefaultBool. intros -> Ht Hf.
  destruct (String.eqb (strings.ToLower envVal) "true") eqn:E1.
  - exfalso. apply Ht. apply (eqb_ToLower_EqualIgnoreCase "true"); [reflexivity | exact E1].
  - destruct (String.eqb (strings.ToLower envVal) "false") eqn:E2; [| reflexivity].
    exfalso. apply Hf. apply (eqb_ToLower_EqualIgnoreCase "false"); [reflexivity | exact E2].
Qed.

(** No string folds to both "true" and "false". *)
Lemma EqualIgnoreCase_true_false envVal :
  strings.EqualIgnoreCase envVal "true" -> strings.EqualIgnoreCase envVal "false" -> False.
Proof.
  intros Ht Hf.
  apply (ToLower_EqualIgnoreCase "true") in Ht; [| reflexivity].
  apply (ToLower_EqualIgnoreCase "false") in Hf; [| reflexivity].
  rewrite Ht in Hf. discriminate.
Qed.

(** The variable reads "true", or reads "false", or neither. *)
Lemma Environ_reads os key :
  (exists envVal, Environ os !! key = Some envVal /\ strings.EqualIgnoreCase envVal "true") \/
  (exists envVal, Environ os !! key = Some envVal /\ strings.EqualIgnoreCase envVal "false") \/
  ~ (exists envVal, Environ os !! key = Some envVal /\
       (strings.EqualIgnoreCase envVal "true" \/ strings.EqualIgnoreCase envVal "false")).
Proof.
  destruct (Environ os !! key) as [v |].
  - destruct (String.eqb (strings.ToLower v) "true") eqn:E1.
    + left. exists v. split; [reflexivity |].
      apply (eqb_ToLower_EqualIgnoreCase "true"); [reflexivity | exact E1].
    + destruct (String.eqb (strings.ToLower v) "false") eqn:E2.
      * right. left. exists v. split; [reflexivity |].
        apply (eqb_ToLower_EqualIgnoreCase "false"); [reflexivity | exact E2].
      * right. right. intros (v' & Hv & [H | H]); injection Hv as <-.
        -- apply (eqb_ToLower_EqualIgnoreCase "true") in H; [congruence | reflexivity].
        -- apply (eqb_ToLower_EqualIgnoreCase "false") in H; [congruence | reflexivity].
  - right. right. intros (v' & Hv & _). discriminate.
Qed.

(** C10. For every key, [envWithDefaultBool] is [true] whatever the default
    exactly when the variable is set to "true" in any mix of cases (as in
    "TrUe"), [false] whatever the default exactly when it is set to "false"
    in any mix of cases (as in "FALSE"), and the default in every other
    case: the variable unset, empty, or set to anything else, such as "1" or
    "yes". Hence, for a given default, it is [true] exactly when the
    variable reads "true", or the default is [true] and the variable does
    not read "false"; and likewise for [false]. *)
Theorem envWithDefaultBool_spec (os : Platform) (key : string) :
  ((forall defaultVal, envWithDefaultBool os key defaultVal = true) <->
   exists envVal, Environ os !! key = Some envVal /\ strings.EqualIgnoreCase envVal "true") /\
  ((forall defaultVal, envWithDefaultBool os key defaultVal = false) <->
   exists envVal, Environ os !! key = Some envVal /\ strings.EqualIgnoreCase envVal "false") /\
  (forall defaultVal,
     ~ (exists envVal, Environ os !! key = Some envVal /\
          (strings.EqualIgnoreCase envVal "true" \/ strings.EqualIgnoreCase envVal "false")) ->
     envWithDefaultBool os key defaultVal = defaultVal) /\
  (forall defaultVal,
     In (Environ os !! key) [None; Some EmptyString; Some "1"; Some "yes"] ->
     envWithDefaultBool os key defaultVal = defaultVal) /\
  (forall defaultVal,
     envWithDefaultBool os key defaultVal = true <->
     (exists envVal, Environ os !! key = Some envVal /\ strings.EqualIgnoreCase envVal "true") \/
     (defaultVal = true /\
      ~ exists envVal, Environ os !! key = Some envVal /\
                       strings.EqualIgnoreCase envVal "false")) /\
  (forall defaultVal,
     envWithDefaultBool os key defaultVal = false <->
     (exists envVal, Environ os !! key = Some envVal /\ strings.EqualIgnoreCase envVal "false") \/
     (defaultVal = false /\
      ~ exists envVal, Environ os !! key = Some envVal /\
                       strings.EqualIgnoreCase envVal "true")) /\
  (Environ os !! key = Some "TrUe" ->
   forall defaultVal, envWithDefaultBool os key defaultVal = true) /\
  (Environ os !! key = Some "FALSE" ->
   forall defaultVal, envWithDefaultBool os key defaultVal = false) /\
  (Environ os !! key = Some "true " ->
   forall defaultVal, envWithDefaultBool os key defaultVal = defaultVal).
Proof.
  assert (Hmixed :
    (Environ os !! key = Some "TrUe" ->
     forall defaultVal, envWithDefaultBool os key defaultVal = true) /\
    (Environ os !! key = Some "FALSE" ->
     forall defaultVal, envWithDefaultBool os key defaultVal = false) /\
    (Environ os !! key = Some "true " ->
     forall defaultVal, envWithDefaultBool os key defaultVal = defaultVal)).
  { unfold envWithDefaultBool. repeat split; intros -> d; reflexivity. }
  destruct Hmixed as (HTrUe & HFALSE & Hspace).
  assert (Hexcl : forall v v', Environ os !! key = Some v ->
            Environ os !! key = Some v' ->
            strings.EqualIgnoreCase v "true" -> strings.EqualIgnoreCase v' "false" -> False).
  { intros v v' H H' Ht Hf. rewrite H in H'. injection H' as <-.
    exact (EqualIgnoreCase_true_false v Ht Hf). }
  destruct (Environ_reads os key) as [(v & Hv & Ht) | [(v & Hv & Hf) | Hno]].
  - assert (Hval : forall d, envWithDefaultBool os key d = true)
      by (intros d; exact (envWithDefaultBool_true os key d v Hv Ht)).
    repeat split.
    + intros _. exists v. tauto.
    + intros _. exact Hval.
    + intros H. specialize (H true). rewrite Hval in H. discriminate.
    + intros (v' & Hv' & Hf) d. exfalso. exact (Hexcl v v' Hv Hv' Ht Hf).
    + intros d Hno. exfalso. apply Hno. exists v. tauto.
    + intros d Hin. exfalso.
      apply (ToLower_EqualIgnoreCase "true") in Ht; [| reflexivity].
      destruct Hin as [H | [H | [H | [H | []]]]]; rewrite Hv in H;
        first [discriminate | injection H as <-; discriminate].
    + intros _. left. exists v. tauto.
    + intros _. apply Hval.
    + rewrite Hval. discriminate.
    + intros [(v' & Hv' & Hf) | [_ Hnt]].
      * exfalso. exact (Hexcl v v' Hv Hv' Ht Hf).
      * exfalso. apply Hnt. exists v. tauto.
    + exact HTrUe.
    + exact HFALSE.
    + exact Hspace.
  - assert (Hval : forall d, envWithDefaultBool os key d = false)
      by (intros d; exact (envWithDefaultBool_false os key d v Hv Hf)).
    repeat split.
    + intros H. specialize (H true). rewrite Hval in H. discriminate.
    + intros (v' & Hv' & Ht) d. exfalso. exact (Hexcl v' v Hv' Hv Ht Hf).
    + intros _. exists v. tauto.
    + intros _. exact Hval.
    + intros d Hno. exfalso. apply Hno. exists v. tauto.
    + intros d Hin. exfalso.
      apply (ToLower_EqualIgnoreCase "false") in Hf; [| reflexivity].
      destruct Hin as [H | [H | [H | [H | []]]]]; rewrite Hv in H;
        first [discriminate | injection H as <-; discriminate].
    + rewrite Hval. discriminate.
    + intros [(v' & Hv' & Ht) | [_ Hnf]].
      * exfalso. exact (Hexcl v' v Hv' Hv Ht Hf).
      * exfalso. apply Hnf. exists v. tauto.
    + intros _. left. exists v. tauto.
    + intros _. apply Hval.
    + exact HTrUe.
    + exact HFALSE.
    + exact Hspace.
  - assert (Hval : forall d, envWithDefaultBool os key d = d).
    { intros d. destruct (Environ os !! key) as [v |] eqn:E.
      - apply (envWithDefaultBool_other os key d v E).
        + intros H. apply Hno. exists v. tauto.
        + intros H. apply Hno. exists v. tauto.
      - apply envWithDefaultBool_unset, E. }
    repeat split.
    + intros H. specialize (H false). rewrite Hval in H. discriminate.
    + intros (v & Hv & Ht). exfalso. apply Hno. exists v. tauto.
    + intros H. specialize (H true). rewrite Hval in H. discriminate.
    + intros (v & Hv & Hf). exfalso. apply Hno. exists v. tauto.
    + intros d _. apply Hval.
    + intros d _. apply Hval.
    + rewrite Hval. intros ->. right. split; [reflexivity |].
      intros (v & Hv & Hf). apply Hno. exists v. tauto.
    + rewrite Hval. intros [(v & Hv & Ht) | [-> _]]; [| reflexivity].
      exfalso. apply Hno. exists v. tauto.
    + rewrite Hval. intros ->. right. split; [reflexivity |].
      intros (v & Hv & Ht). apply Hno. exists v. tauto.
    + rewrite Hval. intros [(v & Hv & Hf) | [-> _]]; [| reflexivity].
      exfalso. apply Hno. exists v. tauto.
    + exact HTrUe.
    + exact HFALSE.
    + exact Hspace.
Qed.

(** VERBOSE=TrUe turns a false default true; DEBUG=fAlSe turns a true
    default false. *)
Lemma envWithDefaultBool_spec_witness :
  envWithDefaultBool (examplePlatform [("VERBOSE", "TrUe")] []) "VERBOSE" false = true /\
  envWithDefaultBool (examplePlatform [("DEBUG", "fAlSe")] []) "DEBUG" true = false.
Proof.
  split.
  - destruct (envWithDefaultBool_spec (examplePlatform [("VERBOSE", "TrUe")] [])
                "VERBOSE") as ((_ & Htrue) & _).
    apply Htrue. exists "TrUe". split; [reflexivity |].
    equal_ignore_case.
  - destruct (envWithDefaultBool_spec (examplePlatform [("DEBUG", "fAlSe")] [])
                "DEBUG") as (_ & (_ & Hfalse) & _).
    apply Hfalse. exists "fAlSe". split; [reflexivity |].
    equal_ignore_case.
Defined.

Example envWithDefaultBool_examples :
  let os := examplePlatform [("A", "TrUe"); ("B", "FALSE"); ("C", "1"); ("D", EmptyString);
                             ("E", "yes"); ("F", "true ")] [] in
  envWithDefaultBool os "A" false = true /\
  envWithDefaultBool os "B" true = false /\
  envWithDefaultBool os "C" false = false /\ envWithDefaultBool os "C" true = true /\
  envWithDefaultBool os "D" true = true /\ envWithDefaultBool os "E" false = false /\
  envWithDefaultBool os "F" false = false /\ envWithDefaultBool os "unset" true = true.
Proof. repeat split. Qed.

(** ** Flag parsing keeps what was not given *)

Lemma given_nil name fs : flag.actual fs = [] -> flag.given name fs = None.
Proof. unfold flag.given. intros ->. reflexivity. Qed.

Lemma given_set_eq name text v fs :
  flag.given name (flag.set name text v fs) = Some text.
Proof.
  unfold flag.given, flag.set. simpl.
  rewrite filter_app, filter_cons_True by reflexivity.
  rewrite filter_nil, last_snoc. reflexivity.
Qed.

Lemma given_set_ne name name' text v fs :
  name <> name' ->
  flag.given name' (flag.set name text v fs) = flag.given name' fs.
Proof.
  intros Hne. unfold flag.given, flag.set. simpl.
  rewrite filter_app, filter_cons_False by (simpl; congruence).
  rewrite filter_nil, app_nil_r. reflexivity.
Qed.

Lemma tracks_refl fs0 : flag.actual fs0 = [] -> tracks fs0 fs0.
Proof. intros H name. rewrite (given_nil name fs0 H). reflexivity. Qed.

(** A flag keeps the kind it was defined with. *)
Lemma tracks_defined fs0 fs name v :
  tracks fs0 fs -> flag.formal fs !! name = Some v ->
  exists v0, flag.formal fs0 !! name = Some v0 /\
             forall v' text, holds v v' text -> holds v0 v' text.
Proof.
  intros Htr Hv. specialize (Htr name).
  destruct (flag.given name fs) as [text |].
  - destruct Htr as (v0 & w & H0 & Hw & Hh).
    exists v0. split; [exact H0 |].
    rewrite Hv in Hw. injection Hw as <-.
    intros v' text'. destruct v0 as [s0 | b0]; simpl in Hh.
    + subst v. simpl. tauto.
    + destruct Hh as (b & _ & ->). simpl. tauto.
  - exists v. split; [congruence | tauto].
Qed.

Lemma tracks_set fs0 fs name vOld v text :
  tracks fs0 fs -> flag.formal fs !! name = Some vOld -> holds vOld v text ->
  tracks fs0 (flag.set name text v fs).
Proof.
  intros Htr Hold Hh name'.
  destruct (decide (name = name')) as [<- | Hne].
  - rewrite given_set_eq.
    destruct (tracks_defined fs0 fs name vOld Htr Hold) as (v0 & H0 & Hk).
    exists v0, v. split; [exact H0 |]. split; [| apply Hk, Hh].
    simpl. apply lookup_insert_eq.
  - rewrite (given_set_ne name name' text v fs Hne).
    specialize (Htr name'). simpl.
    rewrite lookup_insert_ne by exact Hne. exact Htr.
Qed.

Lemma Parse_tracks fs0 (n : nat) :
  forall args fs fs' rest,
    (length args <= n)%nat -> tracks fs0 fs ->
    flag.Parse fs args = flag.Done fs' rest -> tracks fs0 fs'.
Proof.
  induction n as [| n IH]; intros args fs fs' rest Hlen Htr HP.
  - destruct args; [| simpl in Hlen; lia]. simpl in HP.
    injection HP as <- _. exact Htr.
  - destruct args as [| s args]; [simpl in HP; injection HP as <- _; exact Htr |].
    simpl in HP, Hlen.
    destruct (flag.scan s) as [| | | name value];
      [injection HP as <- _; exact Htr | injection HP as <- _; exact Htr
      | discriminate |].
    destruct (flag.formal fs !! name) as [[old | old] |] eqn:Hname.
    + destruct value as [v |].
      * eapply (IH args); [lia | | exact HP].
        eapply tracks_set; [exact Htr | exact Hname | reflexivity].
      * destruct args as [| v args']; [discriminate |].
        eapply (IH args'); [simpl in Hlen; lia | | exact HP].
        eapply tracks_set; [exact Htr | exact Hname | reflexivity].
    + destruct value as [v |].
      * destruct (strconv.ParseBool v) as [b |] eqn:Hb; [| discriminate].
        eapply (IH args); [lia | | exact HP].
        eapply tracks_set; [exact Htr | exact Hname |].
        exists b. split; [exact Hb | reflexivity].
      * eapply (IH args); [lia | | exact HP].
        eapply tracks_set; [exact Htr | exact Hname |].
        exists true. split; reflexivity.
    + destruct (String.eqb name "help" || String.eqb name "h"); discriminate.
Qed.

Lemma defineFlags_actual os : flag.actual (defineFlags os) = [].
Proof. reflexivity. Qed.

(** After a successful parse of the command line, every flag holds the text
    of its last occurrence, or else the default it was defined with. *)
Lemma Parse_defineFlags os fs rest :
  flag.Parse (defineFlags os) (Args os) = flag.Done fs rest ->
  tracks (defineFlags os) fs.
Proof.
  intros HP.
  eapply (Parse_tracks (defineFlags os) (length (Args os)));
    [reflexivity | apply tracks_refl, defineFlags_actual | exact HP].
Qed.

(** The command line as package [flag] reads it. *)
Example Parse_forms os :
  exists fs,
    flag.Parse (defineFlags os)
      ["-listen-addr"; ":8443"; "--verbose=T"; "-forward-url=http://b/?a=b";
       "--"; "-version"] = flag.Done fs ["-version"] /\
    flag.actual fs = [("listen-addr", ":8443"); ("verbose", "T");
                      ("forward-url", "http://b/?a=b")] /\
    flag.getString fs "listen-addr" = ":8443" /\
    flag.getBool fs "verbose" = true /\
    flag.getString fs "forward-url" = "http://b/?a=b" /\
    flag.getBool fs "version" = false.
Proof. eexists. repeat split. Qed.

Example Parse_errors os :
  flag.Parse (defineFlags os) ["-verbose=maybe"] =
    flag.Failed "invalid boolean value maybe for -verbose" /\
  flag.Parse (defineFlags os) ["-listen-addr"] =
    flag.Failed "flag needs an argument: -listen-addr" /\
  flag.Parse (defineFlags os) ["-port"; "80"] =
    flag.Failed "flag provided but not defined: -port" /\
  flag.Parse (defineFlags os) ["---x"] = flag.Failed "bad flag syntax: ---x" /\
  flag.Parse (defineFlags os) ["-h"] = flag.Help.
Proof. repeat split. Qed.

(** ** How the settings resolve *)

Lemma getString_resolved os fs name key defaultVal :
  tracks (defineFlags os) fs ->
  flag.formal (defineFlags os) !! name =
    Some (flag.stringValue (envWithDefault os key defaultVal)) ->
  flag.getString fs name = resolveString os fs name key defaultVal.
Proof.
  intros Htr Hdef. specialize (Htr name).
  unfold resolveString, flag.getString.
  destruct (flag.given name fs) as [text |].
  - destruct Htr as (v0 & v & H0 & Hv & Hh).
    rewrite Hdef in H0. injection H0 as <-. simpl in Hh. subst v.
    rewrite Hv. reflexivity.
  - rewrite Htr, Hdef. reflexivity.
Qed.

Lemma getBool_resolved os fs name key defaultVal :
  tracks (defineFlags os) fs ->
  flag.formal (defineFlags os) !! name =
    Some (flag.boolValue (envWithDefaultBool os key defaultVal)) ->
  resolvesBool os fs name key defaultVal (flag.getBool fs name).
Proof.
  intros Htr Hdef. specialize (Htr name). unfold flag.getBool.
  destruct (flag.given name fs) as [text |] eqn:Hg.
  - destruct Htr as (v0 & v & H0 & Hv & Hh).
    rewrite Hdef in H0. injection H0 as <-. simpl in Hh.
    destruct Hh as (b & Hb & ->). rewrite Hv.
    eapply resolves_flag; eassumption.
  - rewrite Htr, Hdef.
    destruct (Environ os !! key) as [envVal |] eqn:Henv.
    + destruct (String.eqb (strings.ToLower envVal) "true") eqn:E1.
      * apply (eqb_ToLower_EqualIgnoreCase "true") in E1; [| reflexivity].
        rewrite (envWithDefaultBool_true os key defaultVal envVal Henv E1).
        eapply resolves_env_true; eassumption.
      * destruct (String.eqb (strings.ToLower envVal) "false") eqn:E2.
        -- apply (eqb_ToLower_EqualIgnoreCase "false") in E2; [| reflexivity].
           rewrite (envWithDefaultBool_false os key defaultVal envVal Henv E2).
           eapply resolves_env_false; eassumption.
        -- assert (Ht : ~ strings.EqualIgnoreCase envVal "true").
           { intros H. apply (eqb_ToLower_EqualIgnoreCase "true") in H; [| reflexivity].
             congruence. }
           assert (Hf : ~ strings.EqualIgnoreCase envVal "false").
           { intros H. apply (eqb_ToLower_EqualIgnoreCase "false") in H; [| reflexivity].
             congruence. }
           rewrite (envWithDefaultBool_other os key defaultVal envVal Henv Ht Hf).
           apply resolves_default; [exact Hg |].
           intros envVal' Heq. rewrite Henv in Heq. injection Heq as <-.
           split; assumption.
    + rewrite (envWithDefaultBool_unset os key defaultVal Henv).
      apply resolves_default; [exact Hg |].
      intros envVal' Heq. rewrite Henv in Heq. discriminate.
Qed.

(** C7, as the code has it. After the command line parsed, each of the five
    string settings is the text of its flag when the flag was given, else
    its environment variable when that is set, else its documented default;
    each of the two boolean settings is the value of its flag when the flag
    was given, else true or false when its environment variable reads
    "true" or "false" in any mix of cases, else its documented default (the
    variable unset, or set to anything else). *)
Theorem settings_resolution (os : Platform) (fs : flag.FlagSet) (rest : list string) :
  flag.Parse (defineFlags os) (Args os) = flag.Done fs rest ->
  (forall name key defaultVal, In (name, key, defaultVal) stringSettings ->
     flag.getString fs name = resolveString os fs name key defaultVal) /\
  (forall name key defaultVal, In (name, key, defaultVal) boolSettings ->
     resolvesBool os fs name key defaultVal (flag.getBool fs name)).
Proof.
  intros HP. pose proof (Parse_defineFlags os fs rest HP) as Htr.
  split; intros name key defaultVal Hin; simpl in Hin.
  - apply getString_resolved; [exact Htr |].
    repeat (destruct Hin as [Hin | Hin];
            [injection Hin as <- <- <-; reflexivity |]).
    destruct Hin.
  - apply getBool_resolved; [exact Htr |].
    repeat (destruct Hin as [Hin | Hin];
            [injection Hin as <- <- <-; reflexivity |]).
    destruct Hin.
Qed.

(** With LISTEN_ADDR and VERBOSE in the environment and two flags on the
    command line: flags win, then the environment, then the defaults. *)
Lemma settings_resolution_witness :
  exists fs rest,
    flag.Parse
      (defineFlags (examplePlatform [("LISTEN_ADDR", ":8443"); ("VERBOSE", "TRUE");
                                     ("FORWARD_URL", "http://a:1")]
                      ["-forward-url"; "http://b:2"; "--enable-kubernetes-probe=0"]))
      ["-forward-url"; "http://b:2"; "--enable-kubernetes-probe=0"]
    = flag.Done fs rest /\
    flag.getString fs "forward-url" = "http://b:2" /\
    flag.getString fs "listen-addr" = ":8443" /\
    flag.getString fs "cert-filename" = "tls.crt" /\
    flag.getBool fs "enable-kubernetes-probe" = false /\
    flag.getBool fs "verbose" = true.
Proof.
  eexists. eexists. split; [reflexivity |].
  destruct (settings_resolution
              (examplePlatform [("LISTEN_ADDR", ":8443"); ("VERBOSE", "TRUE");
                                ("FORWARD_URL", "http://a:1")]
                 ["-forward-url"; "http://b:2"; "--enable-kubernetes-probe=0"])
              _ _ eq_refl) as [Hs _].
  rewrite (Hs "forward-url" "FORWARD_URL" "http://localhost:80"),
          (Hs "listen-addr" "LISTEN_ADDR" ":443"),
          (Hs "cert-filename" "CERT_FILENAME" "tls.crt")
    by (simpl; tauto).
  repeat split.
Defined.

(** C7, as stated, fails. With VERBOSE=1 and ENABLE_KUBERNETES_PROBE=1 in
    the environment and no flag, verbose is false and the probe setting is
    true, each its default: no reading of the variable's text as a boolean
    makes the variable decide both. *)
Lemma settings_resolution_counterexample :
  ~ exists interp : string -> bool, envDecidesWhenSet interp.
Proof.
  intros [interp H].
  pose (os := examplePlatform
                [("ENABLE_KUBERNETES_PROBE", "1"); ("VERBOSE", "1")] []).
  pose proof (H os (defineFlags os) [] "enable-kubernetes-probe"
                "ENABLE_KUBERNETES_PROBE" true eq_refl
                (or_introl eq_refl) eq_refl "1" eq_refl) as Hprobe.
  pose proof (H os (defineFlags os) [] "verbose" "VERBOSE" false eq_refl
                (or_intror (or_introl eq_refl)) eq_refl "1" eq_refl) as Hverbose.
  change (true = interp "1") in Hprobe.
  change (false = interp "1") in Hverbose.
  congruence.
Qed.

(** ** [Run] *)

(** [Run] when the command line does not parse. *)
Lemma Run_flag_error os :
  (flag.Parse (defineFlags os) (Args os) = flag.Help ->
   Run os = ([EvUsage], Exited 0)) /\
  (forall msg, flag.Parse (defineFlags os) (Args os) = flag.Failed msg ->
   Run os = ([EvStderr msg; EvUsage], Exited 2)).
Proof.
  unfold Run, flag_Parse. split; [intros -> | intros msg ->]; reflexivity.
Qed.

(** [Run] when the version flag holds true. *)
Lemma Run_version_set os fs rest :
  flag.Parse (defineFlags os) (Args os) = flag.Done fs rest ->
  flag.getBool fs "version" = true ->
  Run os =
  ([EvStderr "Fingerproxy - https://github.com/wi1dcard/fingerproxy
";
    EvStderr ("Version: " +:+ BuildTag +:+ " (" +:+ BuildCommit +:+ ")
")],
   Exited 0).
Proof.
  intros HP Hv. unfold Run, flag_Parse. rewrite HP. simpl. rewrite Hv. reflexivity.
Qed.

(** [Run] when [url.Parse] fails. *)
Lemma Run_url_error os fs rest err :
  flag.Parse (defineFlags os) (Args os) = flag.Done fs rest ->
  flag.getBool fs "version" = false ->
  url_Parse os (flag.getString fs "forward-url") = Err err ->
  Run os =
  ([EvUrlParse (flag.getString fs "forward-url") (Err err);
    EvLog DefaultLog (Error err)],
   Exited 1).
Proof.
  intros HP Hv Hu. unfold Run, flag_Parse, callUrlParse.
  rewrite HP. simpl. rewrite Hv, Hu. reflexivity.
Qed.

(** [Run] when the certificate or the key does not load. *)
Lemma Run_tls_error os fs rest forwardTo err :
  flag.Parse (defineFlags os) (Args os) = flag.Done fs rest ->
  flag.getBool fs "version" = false ->
  url_Parse os (flag.getString fs "forward-url") = Ok forwardTo ->
  tls_LoadX509KeyPair os (flag.getString fs "cert-filename")
    (flag.getString fs "certkey-filename") = Err err ->
  Run os =
  ([EvUrlParse (flag.getString fs "forward-url") (Ok forwardTo);
    EvLoadX509KeyPair (flag.getString fs "cert-filename")
      (flag.getString fs "certkey-filename") (Err err);
    EvLog DefaultLog (Error err)],
   Exited 1).
Proof.
  intros HP Hv Hu Hl. unfold Run, flag_Parse, callUrlParse.
  rewrite HP. simpl. rewrite Hv, Hu. simpl.
  rewrite DefaultTLSConfig_unfold, Hl. reflexivity.
Qed.

(** [Run] when the server gets to listen: the events up to the return of
    [ListenAndServe], and the handler the server was given. *)
Lemma Run_serves os fs rest forwardTo tlsCert :
  flag.Parse (defineFlags os) (Args os) = flag.Done fs rest ->
  flag.getBool fs "version" = false ->
  url_Parse os (flag.getString fs "forward-url") = Ok forwardTo ->
  tls_LoadX509KeyPair os (flag.getString fs "cert-filename")
    (flag.getString fs "certkey-filename") = Ok tlsCert ->
  exists server,
    reverseproxy.IsProbeRequest (proxyserver.Handler server) =
      (if flag.getBool fs "enable-kubernetes-probe"
       then Some reverseproxy.IsKubernetesProbeRequest else None) /\
    Run os =
    ([EvUrlParse (flag.getString fs "forward-url") (Ok forwardTo);
      EvLoadX509KeyPair (flag.getString fs "cert-filename")
        (flag.getString fs "certkey-filename") (Ok tlsCert);
      EvInitFingerprint (flag.getBool fs "verbose");
      EvNotifyContext;
      EvLog PrometheusLog
        ("server listening on " +:+ flag.getString fs "metrics-listen-addr");
      EvGoListenAndServe (flag.getString fs "metrics-listen-addr");
      EvStartDebugServer;
      EvLog DefaultLog ("server listening on " +:+ flag.getString fs "listen-addr");
      EvListenAndServe server (flag.getString fs "listen-addr")
        (Serve os server (flag.getString fs "listen-addr"));
      EvLog DefaultLog
        (Error (Serve os server (flag.getString fs "listen-addr")))],
     Ret tt).
Proof.
  intros HP Hv Hu Hl. unfold Run, flag_Parse, callUrlParse.
  rewrite HP. simpl. rewrite Hv, Hu. simpl.
  rewrite DefaultTLSConfig_unfold, Hl. simpl.
  eexists. split; [| reflexivity].
  simpl. destruct (flag.getBool fs "enable-kubernetes-probe"); reflexivity.
Qed.

Lemma Run_cases os : RunCase os.
Proof.
  destruct (flag.Parse (defineFlags os) (Args os)) as [fs rest | | msg] eqn:HP.
  - destruct (flag.getBool fs "version") eqn:Hv.
    + eapply RunVersion; eassumption.
    + destruct (url_Parse os (flag.getString fs "forward-url"))
        as [forwardTo | err] eqn:Hu.
      * destruct (tls_LoadX509KeyPair os (flag.getString fs "cert-filename")
                    (flag.getString fs "certkey-filename")) as [tlsCert | err] eqn:Hl.
        -- eapply RunServes; eassumption.
        -- eapply RunTlsError; eassumption.
      * eapply RunUrlError; eassumption.
  - apply RunFlagError; [intros fs rest; rewrite HP; discriminate |].
    destruct (Run_flag_error os) as [H _]. rewrite (H HP).
    simpl. intros e [<- | []]. reflexivity.
  - apply RunFlagError; [intros fs rest; rewrite HP; discriminate |].
    destruct (Run_flag_error os) as [_ H]. rewrite (H msg HP).
    simpl. intros e [<- | [<- | []]]; reflexivity.
Qed.

Lemma version_flag_value os fs rest text b :
  flag.Parse (defineFlags os) (Args os) = flag.Done fs rest ->
  flag.given "version" fs = Some text -> strconv.ParseBool text = Some b ->
  flag.getBool fs "version" = b.
Proof.
  intros HP Hg Hb.
  pose proof (Parse_defineFlags os fs rest HP "version") as Htr.
  rewrite Hg in Htr. destruct Htr as (v0 & v & H0 & Hv & Hh).
  change (Some (flag.boolValue false) = Some v0) in H0. injection H0 as <-.
  destruct Hh as (b' & Hb' & ->). unfold flag.getBool. rewrite Hv. congruence.
Qed.

(** C3. When [url.Parse] fails on the forward URL, or [tls.LoadX509KeyPair]
    fails on the certificate and key files, [Run] logs that error as its
    last act and leaves the process with exit status 1; nothing in the run
    has opened a listening socket (neither the metrics endpoint, nor the
    debug server, nor [ListenAndServe]). *)
Theorem Run_fatal (os : Platform) (err : error) :
  (exists raw, In (EvUrlParse raw (Err err)) (trace (Run os))) \/
  (exists certFile keyFile,
     In (EvLoadX509KeyPair certFile keyFile (Err err)) (trace (Run os))) ->
  last (trace (Run os)) = Some (EvLog DefaultLog (Error err)) /\
  ending (Run os) = Exited 1 /\
  (forall e, In e (trace (Run os)) -> bindsSocket e = false).
Proof.
  intros Hfail.
  destruct (Run_cases os)
    as [_ Hnone | fs rest HP Hv | fs rest err' HP Hv Hu
        | fs rest forwardTo err' HP Hv Hu Hl | fs rest forwardTo tlsCert HP Hv Hu Hl].
  - exfalso.
    destruct Hfail as [(raw & Hin) | (c & k & Hin)];
      apply Hnone in Hin; discriminate.
  - exfalso. rewrite (Run_version_set os fs rest HP Hv) in Hfail. simpl in Hfail.
    destruct Hfail as [(raw & [H | [H | []]]) | (c & k & [H | [H | []]])];
      discriminate.
  - rewrite (Run_url_error os fs rest err' HP Hv Hu) in *. simpl in Hfail.
    assert (err' = err) as ->.
    { destruct Hfail as [(raw & [H | [H | []]]) | (c & k & [H | [H | []]])];
        first [discriminate | injection H as _ H; exact H]. }
    split; [reflexivity |]. split; [reflexivity |].
    simpl. intros e [<- | [<- | []]]; reflexivity.
  - rewrite (Run_tls_error os fs rest forwardTo err' HP Hv Hu Hl) in *.
    simpl in Hfail.
    assert (err' = err) as ->.
    { destruct Hfail as [(raw & [H | [H | [H | []]]])
                        | (c & k & [H | [H | [H | []]]])];
        first [discriminate | injection H as _ _ H; exact H]. }
    split; [reflexivity |]. split; [reflexivity |].
    simpl. intros e [<- | [<- | [<- | []]]]; reflexivity.
  - exfalso.
    destruct (Run_serves os fs rest forwardTo tlsCert HP Hv Hu Hl)
      as (server & _ & HRun).
    rewrite HRun in Hfail. simpl in Hfail.
    destruct Hfail as [(raw & Hin) | (c & k & Hin)];
      repeat (destruct Hin as [Hin | Hin]; [discriminate |]); destruct Hin.
Qed.

(** A certificate file that does not load: the run ends in the log line and
    exit status 1. *)
Lemma Run_fatal_witness :
  Run (examplePlatform [] ["-cert-filename=missing.crt"]) =
  ([EvUrlParse "http://localhost:80" (Ok (mkURL "http://localhost:80"));
    EvLoadX509KeyPair "missing.crt" "tls.key"
      (Err (errors.New "open missing.crt: no such file or directory"));
    EvLog DefaultLog "open missing.crt: no such file or directory"],
   Exited 1) /\
  last (trace (Run (examplePlatform [] ["-cert-filename=missing.crt"]))) =
    Some (EvLog DefaultLog "open missing.crt: no such file or directory") /\
  ending (Run (examplePlatform [] ["-cert-filename=missing.crt"])) = Exited 1.
Proof.
  split; [reflexivity |].
  destruct (Run_fatal (examplePlatform [] ["-cert-filename=missing.crt"])
              (errors.New "open missing.crt: no such file or directory"))
    as (Hlast & Hend & _).
  - right. exists "missing.crt", "tls.key". right. left. reflexivity.
  - split; [exact Hlast | exact Hend].
Defined.



(** C8. When the version flag is given (and reads true), [Run] writes the
    banner and the line with the build tag and the build commit to standard
    error and exits with status 0; these two writes are all it does: the
    forward URL is not parsed, no certificate is loaded, no metrics or debug
    server is started and no listener is bound. *)
Theorem Run_version (os : Platform) (fs : flag.FlagSet) (rest : list string)
    (text : string) :
  flag.Parse (defineFlags os) (Args os) = flag.Done fs rest ->
  flag.given "version" fs = Some text ->
  strconv.ParseBool text = Some true ->
  trace (Run os) =
    [EvStderr "Fingerproxy - https://github.com/wi1dcard/fingerproxy
";
     EvStderr ("Version: " +:+ BuildTag +:+ " (" +:+ BuildCommit +:+ ")
")] /\
  ending (Run os) = Exited 0 /\
  (forall e, In e (trace (Run os)) -> startsWork e = false).
Proof.
  intros HP Hg Hb.
  pose proof (version_flag_value os fs rest text true HP Hg Hb) as Hv.
  rewrite (Run_version_set os fs rest HP Hv). simpl.
  split; [reflexivity |]. split; [reflexivity |].
  intros e [<- | [<- | []]]; reflexivity.
Qed.

Lemma Run_version_witness :
  Run (examplePlatform [("FORWARD_URL", "http://b:1")] ["-verbose"; "--version"]) =
  ([EvStderr "Fingerproxy - https://github.com/wi1dcard/fingerproxy
";
    EvStderr "Version: GIT_TAG_PLACEHOLDER (GIT_COMMIT_PLACEHOLDER)
"],
   Exited 0).
Proof.
  destruct (Run_version
              (examplePlatform [("FORWARD_URL", "http://b:1")] ["-verbose"; "--version"])
              _ _ "true" eq_refl eq_refl eq_refl) as (Ht & He & _).
  destruct (Run (examplePlatform [("FORWARD_URL", "http://b:1")]
                   ["-verbose"; "--version"])) as [t o].
  simpl in Ht, He. rewrite Ht, He. reflexivity.
Defined.


(** * Further properties of the process *)

Lemma Run_shape os : RunShape os.
Proof.
  destruct (flag.Parse (defineFlags os) (Args os)) as [fs rest | | msg] eqn:HP.
  - destruct (flag.getBool fs "version") eqn:Hv.
    + eapply ShapeVersion; [exact HP | exact Hv | | exact (Run_version_set os fs rest HP Hv)].
      intros e [<- | [<- | []]]; eexists; reflexivity.
    + destruct (url_Parse os (flag.getString fs "forward-url"))
        as [forwardTo | err] eqn:Hu.
      * destruct (tls_LoadX509KeyPair os (flag.getString fs "cert-filename")
                    (flag.getString fs "certkey-filename")) as [tlsCert | err] eqn:Hl.
        -- eapply ShapeServes; try eassumption.
           unfold Run, flag_Parse, callUrlParse.
           rewrite HP. simpl. rewrite Hv, Hu. simpl.
           rewrite DefaultTLSConfig_unfold, Hl. simpl.
           unfold servingTrace, builtServer.
           destruct (flag.getBool fs "enable-kubernetes-probe"); reflexivity.
        -- eapply ShapeTlsError; try eassumption.
           eapply Run_tls_error; eassumption.
      * eapply ShapeUrlError; try eassumption.
        eapply Run_url_error; eassumption.
  - apply ShapeHelp; [exact HP |]. apply (Run_flag_error os), HP.
  - eapply ShapeFlagError; [exact HP |]. apply (Run_flag_error os), HP.
Qed.

(** Case analysis on membership in a list that is written out. *)
Ltac in_list H :=
  simpl in H;
  repeat match type of H with
         | _ \/ _ => destruct H as [H | H]
         | False => destruct H
         end.

(** X1. [Run] returns, instead of leaving the process, exactly when
    [ListenAndServe] was called; the error that call returned is then logged
    last. It exits with status 1 exactly when [url.Parse] or
    [tls.LoadX509KeyPair] failed; its only other exit statuses are 0 and 2,
    and on those nothing past the version check was done. *)
Theorem Run_ending (os : Platform) :
  (ending (Run os) = Ret tt <->
   exists srv addr err, In (EvListenAndServe srv addr err) (trace (Run os))) /\
  (forall srv addr err, In (EvListenAndServe srv addr err) (trace (Run os)) ->
     err = Serve os srv addr /\
     last (trace (Run os)) = Some (EvLog DefaultLog (Error err))) /\
  (ending (Run os) = Exited 1 <->
   exists e, In e (trace (Run os)) /\ failedCall e = true) /\
  (forall code, ending (Run os) = Exited code -> code = 0 \/ code = 1 \/ code = 2) /\
  (forall code, ending (Run os) = Exited code -> code <> 1 ->
     forall e, In e (trace (Run os)) -> startsWork e = false).
Proof.
  destruct (Run_shape os)
    as [_ HR | msg _ HR | fs rest t _ _ Ht HR | fs rest err _ _ _ HR
        | fs rest forwardTo err _ _ _ _ HR | fs rest forwardTo tlsCert _ _ _ _ HR];
    rewrite HR; unfold trace, ending; simpl;
    (split; [split | split; [| split; [split | split]]]).
  - discriminate.
  - intros (srv & addr & err & H). in_list H; discriminate.
  - intros srv addr err H. in_list H; discriminate.
  - discriminate.
  - intros (e & H & Hf). in_list H; subst e; discriminate.
  - intros code H. injection H as <-. tauto.
  - intros code _ _ e H. in_list H; subst e; reflexivity.
  - discriminate.
  - intros (srv & addr & err & H). in_list H; discriminate.
  - intros srv addr err H. in_list H; discriminate.
  - discriminate.
  - intros (e & H & Hf). in_list H; subst e; discriminate.
  - intros code H. injection H as <-. tauto.
  - intros code _ _ e H. in_list H; subst e; reflexivity.
  - discriminate.
  - intros (srv & addr & err & H). apply Ht in H as (s & H). discriminate.
  - intros srv addr err H. apply Ht in H as (s & H). discriminate.
  - discriminate.
  - intros (e & H & Hf). apply Ht in H as (s & ->). discriminate.
  - intros code H. injection H as <-. tauto.
  - intros code _ _ e H. apply Ht in H as (s & ->). reflexivity.
  - discriminate.
  - intros (srv & addr & err' & H). in_list H; discriminate.
  - intros srv addr err' H. in_list H; discriminate.
  - intros _. eexists. split; [left; reflexivity | reflexivity].
  - reflexivity.
  - intros code H. injection H as <-. tauto.
  - intros code H Hne. injection H as <-. congruence.
  - discriminate.
  - intros (srv & addr & err' & H). in_list H; discriminate.
  - intros srv addr err' H. in_list H; discriminate.
  - intros _. eexists. split; [right; left; reflexivity | reflexivity].
  - reflexivity.
  - intros code H. injection H as <-. tauto.
  - intros code H Hne. injection H as <-. congruence.
  - intros _. do 3 eexists. do 8 right. left. reflexivity.
  - reflexivity.
  - intros srv addr err H. in_list H; try discriminate.
    injection H as <- <- <-. split; reflexivity.
  - discriminate.
  - intros (e & H & Hf). in_list H; subst e; discriminate.
  - discriminate.
  - discriminate.
Qed.

(** X2. Before [Run] opens any socket (metrics endpoint, debug server or the
    TLS listener), the forward URL has parsed, the certificate has loaded,
    the fingerprint package is initialised and the signal context is
    installed, and no library call has failed. *)
Theorem Run_setup_before_bind (os : Platform) (t1 t2 : list event) (e : event) :
  trace (Run os) = (t1 ++ e :: t2)%list ->
  bindsSocket e = true ->
  (exists raw forwardTo, In (EvUrlParse raw (Ok forwardTo)) t1) /\
  (exists certFile keyFile tlsCert,
     In (EvLoadX509KeyPair certFile keyFile (Ok tlsCert)) t1) /\
  (exists verboseLogs, In (EvInitFingerprint verboseLogs) t1) /\
  In EvNotifyContext t1 /\
  Forall (fun e' => failedCall e' = false) t1.
Proof.
  intros H Hb.
  assert (Hin : In e (trace (Run os))) by (rewrite H; apply in_elt).
  destruct (Run_shape os)
    as [_ HR | msg _ HR | fs rest t _ _ Ht HR | fs rest err _ _ _ HR
        | fs rest forwardTo err _ _ _ _ HR | fs rest forwardTo tlsCert _ _ _ _ HR];
    rewrite HR in H, Hin; unfold trace in H, Hin; simpl in H, Hin.
  - in_list Hin; subst e; discriminate.
  - in_list Hin; subst e; discriminate.
  - apply Ht in Hin as (s & ->). discriminate.
  - in_list Hin; subst e; discriminate.
  - in_list Hin; subst e; discriminate.
  - clear Hin. unfold servingTrace in H.
    repeat (destruct t1 as [| x t1]; simpl in H;
            [ injection H as <- _; try discriminate Hb;
              (split; [do 2 eexists; left; reflexivity |]);
              (split; [do 3 eexists; right; left; reflexivity |]);
              (split; [eexists; do 2 right; left; reflexivity |]);
              (split; [do 3 right; left; reflexivity |]);
              repeat constructor
            | injection H as <- H ]).
    destruct t1; discriminate H.
Qed.

(** The default run: the metrics endpoint is the first socket, and the setup
    precedes it. *)
Lemma Run_setup_before_bind_witness :
  In EvNotifyContext
    [EvUrlParse "http://localhost:80" (Ok (mkURL "http://localhost:80"));
     EvLoadX509KeyPair "tls.crt" "tls.key" (Ok (tls.mkCertificate ["tls.crt"] "tls.key"));
     EvInitFingerprint false; EvNotifyContext;
     EvLog PrometheusLog "server listening on :9035"].
Proof.
  eapply (Run_setup_before_bind (examplePlatform [] []) _ _ (EvGoListenAndServe ":9035")).
  - reflexivity.
  - reflexivity.
Defined.

Lemma filter_listenerCall_stderr (t : list event) :
  (forall e, In e t -> exists s, e = EvStderr s) ->
  List.filter listenerCall t = [].
Proof.
  induction t as [| e t IH]; intros H; [reflexivity |].
  destruct (H e (or_introl eq_refl)) as (s & ->). simpl.
  apply IH. intros e' He'. apply H. right. exact He'.
Qed.

(** X3. [Run] makes its listener-starting calls all or none: a run contains
    either none of them, or exactly three, in the order
    [go http.ListenAndServe] for the metrics, [debug.StartDebugServer()],
    [server.ListenAndServe]; the metrics call and the server call each come
    right after the log line that announces their address. (This is about
    the calls made, not about sockets bound: the metrics goroutine's error
    is dropped and [server.ListenAndServe] may return a bind error.) *)
Theorem Run_listener_calls (os : Platform) :
  List.filter listenerCall (trace (Run os)) = [] \/
  exists metricsAddr srv addr err,
    List.filter listenerCall (trace (Run os)) =
      [EvGoListenAndServe metricsAddr; EvStartDebugServer;
       EvListenAndServe srv addr err] /\
    exists t1 t2 t3,
      trace (Run os) =
        (t1 ++ [EvLog PrometheusLog ("server listening on " +:+ metricsAddr);
                EvGoListenAndServe metricsAddr]
            ++ t2
            ++ [EvLog DefaultLog ("server listening on " +:+ addr);
                EvListenAndServe srv addr err]
            ++ t3)%list.
Proof.
  destruct (Run_shape os)
    as [_ HR | msg _ HR | fs rest t _ _ Ht HR | fs rest err _ _ _ HR
        | fs rest forwardTo err _ _ _ _ HR | fs rest forwardTo tlsCert _ _ _ _ HR];
    rewrite HR; unfold trace; simpl; try (left; reflexivity).
  - left. apply filter_listenerCall_stderr, Ht.
  - right. do 4 eexists. split; [reflexivity |].
    exists [EvUrlParse (flag.getString fs "forward-url") (Ok forwardTo);
            EvLoadX509KeyPair (flag.getString fs "cert-filename")
              (flag.getString fs "certkey-filename") (Ok tlsCert);
            EvInitFingerprint (flag.getBool fs "verbose"); EvNotifyContext],
           [EvStartDebugServer].
    eexists. reflexivity.
Qed.

(** What each effect of a run is called with, in terms of the parsed flags. *)
Lemma Run_effects os fs rest :
  flag.Parse (defineFlags os) (Args os) = flag.Done fs rest ->
  forall e, In e (trace (Run os)) ->
    match e with
    | EvUrlParse raw r =>
        raw = flag.getString fs "forward-url" /\ r = url_Parse os raw
    | EvLoadX509KeyPair certFile keyFile r =>
        certFile = flag.getString fs "cert-filename" /\
        keyFile = flag.getString fs "certkey-filename" /\
        r = tls_LoadX509KeyPair os certFile keyFile
    | EvInitFingerprint verboseLogs => verboseLogs = flag.getBool fs "verbose"
    | EvGoListenAndServe addr => addr = flag.getString fs "metrics-listen-addr"
    | EvListenAndServe srv addr err =>
        addr = flag.getString fs "listen-addr" /\ err = Serve os srv addr /\
        exists forwardTo tlsCert,
          url_Parse os (flag.getString fs "forward-url") = Ok forwardTo /\
          tls_LoadX509KeyPair os (flag.getString fs "cert-filename")
            (flag.getString fs "certkey-filename") = Ok tlsCert /\
          srv = builtServer fs forwardTo tlsCert
    | _ => True
    end.
Proof.
  intros HP e Hin.
  destruct (Run_shape os)
    as [HP' HR | msg HP' HR | fs' rest' t HP' _ Ht HR | fs' rest' err HP' _ Hu HR
        | fs' rest' forwardTo err HP' _ Hu Hl HR
        | fs' rest' forwardTo tlsCert HP' _ Hu Hl HR];
    rewrite HP in HP'; try discriminate; injection HP' as <- <-;
    rewrite HR in Hin; unfold trace in Hin; simpl in Hin.
  - apply Ht in Hin as (s & ->). exact I.
  - in_list Hin; subst e; simpl; auto.
  - in_list Hin; subst e; simpl; auto.
  - unfold servingTrace in Hin. in_list Hin; subst e; simpl; auto.
    split; [reflexivity |]. split; [reflexivity |]. eauto.
Qed.

(** X4. After the command line parsed, [Run] parses the forward URL it
    resolved (flag, else FORWARD_URL, else http://localhost:80), loads the
    key pair from the resolved certificate and key file names, starts the
    metrics endpoint on the resolved metrics address and the TLS listener on
    the resolved listen address; it calls none of them with anything else. *)
Theorem Run_uses_settings (os : Platform) (fs : flag.FlagSet) (rest : list string) :
  flag.Parse (defineFlags os) (Args os) = flag.Done fs rest ->
  (forall raw r, In (EvUrlParse raw r) (trace (Run os)) ->
     raw = resolveString os fs "forward-url" "FORWARD_URL" "http://localhost:80") /\
  (forall certFile keyFile r,
     In (EvLoadX509KeyPair certFile keyFile r) (trace (Run os)) ->
     certFile = resolveString os fs "cert-filename" "CERT_FILENAME" "tls.crt" /\
     keyFile = resolveString os fs "certkey-filename" "CERTKEY_FILENAME" "tls.key") /\
  (forall addr, In (EvGoListenAndServe addr) (trace (Run os)) ->
     addr = resolveString os fs "metrics-listen-addr" "METRICS_LISTEN_ADDR" ":9035") /\
  (forall srv addr err, In (EvListenAndServe srv addr err) (trace (Run os)) ->
     addr = resolveString os fs "listen-addr" "LISTEN_ADDR" ":443").
Proof.
  intros HP. pose proof (Parse_defineFlags os fs rest HP) as Htr.
  pose proof (Run_effects os fs rest HP) as Heff.
  split; [| split; [| split]].
  - intros raw r Hin. destruct (Heff _ Hin) as [-> _].
    apply getString_resolved; [exact Htr | reflexivity].
  - intros certFile keyFile r Hin. destruct (Heff _ Hin) as (-> & -> & _).
    split; (apply getString_resolved; [exact Htr | reflexivity]).
  - intros addr Hin. rewrite (Heff _ Hin).
    apply getString_resolved; [exact Htr | reflexivity].
  - intros srv addr err Hin. destruct (Heff _ Hin) as (-> & _).
    apply getString_resolved; [exact Htr | reflexivity].
Qed.

(** FORWARD_URL and CERT_FILENAME from the environment, the listen address
    from a flag: the URL parsed is the variable's, the listener's address the
    flag's. *)
Lemma Run_uses_settings_witness :
  (forall raw r,
     In (EvUrlParse raw r)
        (trace (Run (examplePlatform
                       [("FORWARD_URL", "http://b:8080"); ("LISTEN_ADDR", ":1")]
                       ["-listen-addr=:8443"]))) ->
     raw = "http://b:8080") /\
  (forall srv addr err,
     In (EvListenAndServe srv addr err)
        (trace (Run (examplePlatform
                       [("FORWARD_URL", "http://b:8080"); ("LISTEN_ADDR", ":1")]
                       ["-listen-addr=:8443"]))) ->
     addr = ":8443").
Proof.
  destruct (Run_uses_settings
              (examplePlatform [("FORWARD_URL", "http://b:8080"); ("LISTEN_ADDR", ":1")]
                 ["-listen-addr=:8443"]) _ _ eq_refl) as (Hu & _ & _ & Hl).
  split.
  - intros raw r Hin. exact (Hu raw r Hin).
  - intros srv addr err Hin. exact (Hl srv addr err Hin).
Defined.

(** X5. The server that [Run] starts forwards to the URL that [url.Parse]
    returned and presents the certificate that [tls.LoadX509KeyPair]
    returned, alone, under the protocol bounds of [DefaultTLSConfig]; its
    handler carries the default header injectors and [proxyErrorHandler],
    flushes every 100 ms, and the server has the package's loggers, registry
    and timeouts (idle 180 s, read 60 s, write 60 s, handshake 10 s): no
    setting changes any of these. *)
Theorem Run_server_wiring (os : Platform) (srv : proxyserver.Server)
    (addr : string) (err : error) :
  In (EvListenAndServe srv addr err) (trace (Run os)) ->
  exists raw forwardTo certFile keyFile tlsCert,
    In (EvUrlParse raw (Ok forwardTo)) (trace (Run os)) /\
    In (EvLoadX509KeyPair certFile keyFile (Ok tlsCert)) (trace (Run os)) /\
    reverseproxy.To (proxyserver.Handler srv) = forwardTo /\
    tls.Certificates (proxyserver.TLSConfig srv) = [tlsCert] /\
    tls.NextProtos (proxyserver.TLSConfig srv) = ["h2"; "http/1.1"] /\
    tls.MinVersion (proxyserver.TLSConfig srv) = tls.VersionTLS12 /\
    tls.MaxVersion (proxyserver.TLSConfig srv) = tls.VersionTLS13 /\
    reverseproxy.HeaderInjectors (proxyserver.Handler srv) = DefaultHeaderInjectors /\
    reverseproxy.ErrorHandler (reverseproxy.Proxy (proxyserver.Handler srv)) =
      reverseproxy.proxyErrorHandlerFunc /\
    reverseproxy.ErrorLog (reverseproxy.Proxy (proxyserver.Handler srv)) =
      ReverseProxyLog /\
    reverseproxy.FlushInterval (reverseproxy.Proxy (proxyserver.Handler srv)) =
      100 * time.Millisecond /\
    proxyserver.ErrorLog srv = ProxyServerLog /\
    proxyserver.HTTPServer_ErrorLog srv = HTTPServerLog /\
    proxyserver.MetricsRegistry srv = PrometheusRegistry /\
    proxyserver.HTTPServer_IdleTimeout srv = 180 * time.Second /\
    proxyserver.HTTPServer_ReadTimeout srv = 60 * time.Second /\
    proxyserver.HTTPServer_WriteTimeout srv = 60 * time.Second /\
    proxyserver.TLSHandshakeTimeout srv = 10 * time.Second.
Proof.
  intros Hin.
  destruct (Run_shape os)
    as [_ HR | msg _ HR | fs rest t _ _ Ht HR | fs rest err' _ _ _ HR
        | fs rest forwardTo err' _ _ _ _ HR | fs rest forwardTo tlsCert _ _ _ _ HR];
    rewrite HR in *; unfold trace in *; simpl in Hin.
  - in_list Hin; discriminate.
  - in_list Hin; discriminate.
  - apply Ht in Hin as (s & H). discriminate.
  - in_list Hin; discriminate.
  - in_list Hin; discriminate.
  - unfold servingTrace in Hin. in_list Hin; try discriminate.
    injection Hin as <- <- <-.
    exists (flag.getString fs "forward-url"), forwardTo,
           (flag.getString fs "cert-filename"),
           (flag.getString fs "certkey-filename"), tlsCert.
    simpl. split; [left; reflexivity |]. split; [right; left; reflexivity |].
    repeat split.
Qed.

Lemma Run_server_wiring_witness :
  exists srv,
    In (EvListenAndServe srv ":443" (errors.New "http: Server closed"))
       (trace (Run (examplePlatform [("FORWARD_URL", "http://b:8080")]
                      ["-cert-filename"; "site.pem"]))) /\
    reverseproxy.To (proxyserver.Handler srv) = mkURL "http://b:8080" /\
    tls.Certificates (proxyserver.TLSConfig srv) =
      [tls.mkCertificate ["site.pem"] "tls.key"].
Proof.
  eexists. split.
  - simpl. do 8 right. left. reflexivity.
  - edestruct (Run_server_wiring
                 (examplePlatform [("FORWARD_URL", "http://b:8080")]
                    ["-cert-filename"; "site.pem"]))
      as (raw & forwardTo & certFile & keyFile & tlsCert & Hu & Hl & HTo & Hc & _).
    + simpl. do 8 right. left. reflexivity.
    + vm_compute in Hu, Hl. in_list Hu; try discriminate. in_list Hl; try discriminate.
      injection Hu as _ <-. injection Hl as _ _ <-.
      split; [exact HTo | exact Hc].
Defined.

(** X6. One verbosity setting drives both places: after the command line
    parsed, the value given to [InitFingerprint] and the [VerboseLogs] of
    the server that is started are both the verbose flag, which is the
    flag's value if given, else VERBOSE when it reads true or false, else
    false. *)
Theorem Run_verbosity (os : Platform) (fs : flag.FlagSet) (rest : list string) :
  flag.Parse (defineFlags os) (Args os) = flag.Done fs rest ->
  resolvesBool os fs "verbose" "VERBOSE" false (flag.getBool fs "verbose") /\
  (forall verboseLogs, In (EvInitFingerprint verboseLogs) (trace (Run os)) ->
     verboseLogs = flag.getBool fs "verbose") /\
  (forall srv addr err, In (EvListenAndServe srv addr err) (trace (Run os)) ->
     proxyserver.VerboseLogs srv = flag.getBool fs "verbose" /\
     In (EvInitFingerprint (proxyserver.VerboseLogs srv)) (trace (Run os))).
Proof.
  intros HP. pose proof (Run_effects os fs rest HP) as Heff.
  split; [| split].
  - apply getBool_resolved; [apply (Parse_defineFlags os fs rest HP) | reflexivity].
  - intros b Hin. exact (Heff _ Hin).
  - intros srv addr err Hin.
    destruct (Heff _ Hin) as (_ & _ & forwardTo & tlsCert & Hu & Hl & ->).
    split; [reflexivity |].
    destruct (Run_shape os)
      as [HP' HR | msg HP' HR | fs' rest' t HP' _ Ht HR | fs' rest' err' HP' _ Hu' HR
          | fs' rest' forwardTo' err' HP' _ Hu' Hl' HR
          | fs' rest' forwardTo' tlsCert' HP' _ Hu' Hl' HR];
      rewrite HP in HP'; try discriminate; injection HP' as <- <-;
      rewrite HR in *; unfold trace in *; simpl in Hin.
    + apply Ht in Hin as (s & H). discriminate.
    + in_list Hin; discriminate.
    + in_list Hin; discriminate.
    + simpl. do 2 right. left. reflexivity.
Qed.

Lemma Run_verbosity_witness :
  exists srv,
    In (EvListenAndServe srv ":443" (errors.New "http: Server closed"))
       (trace (Run (examplePlatform [("VERBOSE", "True")] []))) /\
    proxyserver.VerboseLogs srv = true.
Proof.
  eexists. split.
  - simpl. do 8 right. left. reflexivity.
  - destruct (Run_verbosity (examplePlatform [("VERBOSE", "True")] []) _ _ eq_refl)
      as (_ & _ & Hsrv).
    etransitivity; [eapply Hsrv | reflexivity].
    simpl. do 8 right. left. reflexivity.
Defined.

(** ** More on the environment helpers *)

Lemma String_cons_neq (c : ascii) (s : string) : String c s <> s.
Proof.
  intros H. apply (f_equal String.length) in H. simpl in H. lia.
Qed.

(** X7. [envWithDefault] yields the same text for every default exactly
    when the variable is set, to that text, and yields each default back
    exactly when the variable is unset; a variable that is set but empty
    counts as set, so the result is then the empty string and not the
    default. *)
Theorem envWithDefault_spec (os : Platform) (key : string) :
  (forall envVal,
     (forall defaultVal, envWithDefault os key defaultVal = envVal) <->
     Environ os !! key = Some envVal) /\
  ((forall defaultVal, envWithDefault os key defaultVal = defaultVal) <->
   Environ os !! key = None) /\
  (Environ os !! key = Some EmptyString ->
   forall defaultVal, envWithDefault os key defaultVal = EmptyString).
Proof.
  unfold envWithDefault.
  destruct (Environ os !! key) as [v |]; (split; [| split]).
  - intros envVal. split.
    + intros H. rewrite <- (H EmptyString). reflexivity.
    + intros H d. injection H as <-. reflexivity.
  - split; [| discriminate].
    intros H. exfalso. apply (String_cons_neq "x" v). symmetry. apply H.
  - intros H d. injection H as ->. reflexivity.
  - intros envVal. split; [| discriminate].
    intros H. exfalso. apply (String_cons_neq "x" envVal). apply H.
  - split; reflexivity.
  - discriminate.
Qed.

Lemma EqualIgnoreCase_ToLower v v' :
  strings.EqualIgnoreCase v v' -> strings.ToLower v = strings.ToLower v'.
Proof.
  induction 1 as [| a b s t Hab _ IH]; simpl; [reflexivity |].
  rewrite (sameLetter_lowerByte a b Hab), IH. reflexivity.
Qed.

(** X8. [envWithDefaultBool] does not see the case of letters: two variables
    whose texts differ only in the case of ASCII letters (by the table of
    letters) resolve alike, for every default; so FaLsE does what false
    does. *)
Theorem envWithDefaultBool_case_insensitive (os os' : Platform) (key key' : string)
    (envVal envVal' : string) (defaultVal : bool) :
  Environ os !! key = Some envVal ->
  Environ os' !! key' = Some envVal' ->
  strings.EqualIgnoreCase envVal envVal' ->
  envWithDefaultBool os key defaultVal = envWithDefaultBool os' key' defaultVal.
Proof.
  intros H H' Hfold. unfold envWithDefaultBool.
  rewrite H, H', (EqualIgnoreCase_ToLower envVal envVal' Hfold). reflexivity.
Qed.

(** VERBOSE=FaLsE resolves as DEBUG=false does: a true default becomes
    false. *)
Lemma envWithDefaultBool_case_insensitive_witness :
  envWithDefaultBool (examplePlatform [("VERBOSE", "FaLsE")] []) "VERBOSE" true =
  envWithDefaultBool (examplePlatform [("DEBUG", "false")] []) "DEBUG" true /\
  envWithDefaultBool (examplePlatform [("DEBUG", "false")] []) "DEBUG" true = false.
Proof.
  split; [| reflexivity].
  apply (envWithDefaultBool_case_insensitive _ _ _ _ "FaLsE" "false").
  - reflexivity.
  - reflexivity.
  - equal_ignore_case.
Defined.

(** ** More on the error handler *)

Lemma rwCalls_proxyErrorHandler req err :
  rwCalls (proxyErrorHandler req err) =
  [EvWriteHeader (if isTimeout err then 504 else 502)].
Proof.
  rewrite proxyErrorHandler_unfold. unfold rwCalls, trace. simpl.
  destruct (isTimeout err); reflexivity.
Qed.

Lemma isTimeout_Join msg errs :
  isTimeout (Join msg noIs errs) = existsb isTimeout errs.
Proof.
  unfold isTimeout. simpl.
  induction errs as [| e errs IH]; simpl; [reflexivity |].
  rewrite <- IH.
  destruct (Is e DeadlineExceeded), (Is e Canceled),
    (existsb (fun e0 => Is e0 DeadlineExceeded) errs),
    (existsb (fun e0 => Is e0 Canceled) errs); reflexivity.
Qed.

(** X9. The status the error handler answers with survives wrapping and is
    lost by flattening: an error wrapped with [%w] gets the status of the
    error inside; an error made from a text alone ([errors.New]) gets 502
    whatever the text says; an error that joins several gets 504 exactly
    when one of them does. *)
Theorem proxyErrorHandler_wrapping (req : http.Request) :
  (forall msg err,
     rwCalls (proxyErrorHandler req (Errorf_w msg err)) =
     rwCalls (proxyErrorHandler req err)) /\
  (forall msg, rwCalls (proxyErrorHandler req (errors.New msg)) = [EvWriteHeader 502]) /\
  (forall msg errs,
     rwCalls (proxyErrorHandler req (Join msg noIs errs)) = [EvWriteHeader 504] <->
     exists err, In err errs /\
                 rwCalls (proxyErrorHandler req err) = [EvWriteHeader 504]).
Proof.
  split; [| split].
  - intros msg err. rewrite !rwCalls_proxyErrorHandler. reflexivity.
  - intros msg. rewrite rwCalls_proxyErrorHandler. reflexivity.
  - intros msg errs. rewrite rwCalls_proxyErrorHandler, isTimeout_Join.
    destruct (existsb isTimeout errs) eqn:E.
    + apply existsb_exists in E as (err & Hin & Ht).
      split; [| reflexivity]. intros _. exists err. split; [exact Hin |].
      rewrite rwCalls_proxyErrorHandler, Ht. reflexivity.
    + split; [discriminate |].
      intros (err & Hin & H). rewrite rwCalls_proxyErrorHandler in H.
      assert (Ht : isTimeout err = true) by (destruct (isTimeout err); [reflexivity | discriminate]).
      assert (existsb isTimeout errs = true) by (apply existsb_exists; eauto).
      congruence.
Qed.

(** ** [Run] without arguments *)

(** X10. With no command-line argument, whatever the environment holds,
    [Run] does not stop at the flags or at the version banner: the first
    thing it does is to parse the forward URL taken from FORWARD_URL, or
    http://localhost:80 when that is unset, and the only status it can exit
    with is 1. *)
Theorem Run_without_arguments (os : Platform) :
  Args os = [] ->
  (exists t,
     trace (Run os) =
       EvUrlParse (envWithDefault os "FORWARD_URL" "http://localhost:80")
         (url_Parse os (envWithDefault os "FORWARD_URL" "http://localhost:80")) :: t) /\
  (forall code, ending (Run os) = Exited code -> code = 1).
Proof.
  intros Hargs.
  assert (HP : flag.Parse (defineFlags os) (Args os) = flag.Done (defineFlags os) [])
    by (rewrite Hargs; reflexivity).
  destruct (Run_shape os)
    as [HP' HR | msg HP' HR | fs rest t HP' Hv Ht HR | fs rest err HP' _ Hu HR
        | fs rest forwardTo err HP' _ Hu Hl HR
        | fs rest forwardTo tlsCert HP' _ Hu Hl HR];
    rewrite HP in HP'; try discriminate; injection HP' as <- <-;
    rewrite HR; unfold trace, ending; simpl.
  - discriminate Hv.
  - change (flag.getString (defineFlags os) "forward-url")
      with (envWithDefault os "FORWARD_URL" "http://localhost:80") in *.
    rewrite Hu. split; [eexists; reflexivity |].
    intros code H. injection H as <-. reflexivity.
  - change (flag.getString (defineFlags os) "forward-url")
      with (envWithDefault os "FORWARD_URL" "http://localhost:80") in *.
    rewrite Hu. split; [eexists; reflexivity |].
    intros code H. injection H as <-. reflexivity.
  - change (flag.getString (defineFlags os) "forward-url")
      with (envWithDefault os "FORWARD_URL" "http://localhost:80") in *.
    rewrite Hu. split; [eexists; reflexivity |]. discriminate.
Qed.

Lemma Run_without_arguments_witness :
  exists t,
    trace (Run (examplePlatform [("VERBOSE", "maybe"); ("FORWARD_URL", "http://b:1")] [])) =
    EvUrlParse "http://b:1" (Ok (mkURL "http://b:1")) :: t.
Proof.
  destruct (Run_without_arguments
              (examplePlatform [("VERBOSE", "maybe"); ("FORWARD_URL", "http://b:1")] [])
              eq_refl) as [(t & Ht) _].
  exists t. exact Ht.
Defined.
